(** * plot_benchmarks: the report parser, the chart projections and the CSV export

    A shallow embedding of [scripts/plot_benchmarks.py].

    Modelling conventions.
    - A Python [str] is a [string]; its characters are the code points below
      256 of the decoded text.
    - A Python [float] is the exact decimal it was read from ([pyfloat]);
      rounding to binary64 is not modelled, and [np.mean] is the exact
      rational mean.
    - A [dict] is an association list in insertion order (the CSV export
      iterates over it); a missing key is a [KeyError].
    - Exceptions are values of [exn]; a computation that can raise returns
      a [result].
    - The file system is the list of files the run has created so far, each
      with what was written to it; a saved figure is recorded by the data
      handed to matplotlib. *)

From Stdlib Require Import String Ascii List Bool Arith NArith ZArith QArith Lia.
From Stdlib Require Import DecimalString DecimalN.
Import ListNotations.

#[local] Open Scope nat_scope.
#[local] Open Scope list_scope.
#[local] Open Scope string_scope.

(** ** Python built-ins used by the script *)

Module Py.

(** Exceptions the script can raise. *)
Inductive exn : Type :=
| AttributeError          (* [None.group(1)] *)
| ValueError              (* [float] on a malformed literal *)
| KeyError (key : string) (* [d[key]] on a missing key *)
| TypeError               (* ['Basic' in None] *)
| IndexError              (* [l[i]] out of range *)
| FileNotFoundError.      (* [open] on a missing file *)

Inductive result (A : Type) : Type :=
| Ok (a : A)
| Raise (e : exn).
Arguments Ok {A} a.
Arguments Raise {A} e.

Definition bind {A B} (r : result A) (k : A -> result B) : result B :=
  match r with
  | Ok a => k a
  | Raise e => Raise e
  end.

(** [str.isspace] on one character, which is also the regular expression
    class [\s] on a [str] pattern: TAB..CR, FS..US, space, NEL, NBSP. *)
Definition isspace (c : ascii) : bool :=
  let n := nat_of_ascii c in
  (((9 <=? n) && (n <=? 13)) || ((28 <=? n) && (n <=? 32))
   || (n =? 133) || (n =? 160))%nat.

(** The regular expression class [\d] (below code point 256). *)
Definition isdigit (c : ascii) : bool :=
  let n := nat_of_ascii c in ((48 <=? n) && (n <=? 57))%nat.

(** The regular expression class [[\d.]]. *)
Definition isnumchar (c : ascii) : bool :=
  isdigit c || Ascii.eqb c ".".

(** [sub in s] *)
Fixpoint contains (sub s : string) : bool :=
  prefix sub s ||
  match s with
  | EmptyString => false
  | String _ s' => contains sub s'
  end.

(** [s.split(sep)] for a non-empty [sep]: cut at the leftmost occurrences of
    [sep], which do not overlap.  [skip] counts the characters of the
    separator just matched that are still to be dropped, and [cur] is the
    piece being read. *)
Fixpoint split_from (sep s : string) (skip : nat) (cur : string) : list string :=
  match s with
  | EmptyString => [cur]
  | String c s' =>
      match skip with
      | S k => split_from sep s' k cur
      | O =>
          if prefix sep s
          then cur :: split_from sep s' (String.length sep - 1) ""
          else split_from sep s' 0 (cur ++ String c "")
      end
  end.

Definition split (sep s : string) : list string := split_from sep s 0 "".

(** [sep.join(l)] *)
Fixpoint join (sep : string) (l : list string) : string :=
  match l with
  | [] => ""
  | [x] => x
  | x :: l' => x ++ sep ++ join sep l'
  end.

(** [l[i]] *)
Definition getitem {A} (l : list A) (i : nat) : result A :=
  match nth_error l i with
  | Some x => Ok x
  | None => Raise IndexError
  end.

(** [l[:-1]] *)
Definition but_last {A} (l : list A) : list A := removelast l.

Fixpoint lstrip (s : string) : string :=
  match s with
  | EmptyString => ""
  | String c s' => if isspace c then lstrip s' else s
  end.

Fixpoint rstrip (s : string) : string :=
  match s with
  | EmptyString => ""
  | String c s' =>
      match rstrip s' with
      | EmptyString => if isspace c then "" else String c ""
      | r => String c r
      end
  end.

(** [s.strip()] *)
Definition strip (s : string) : string := rstrip (lstrip s).

(** Truth value of an optional string: [None] and [''] are false. *)
Definition truthy (o : option string) : bool :=
  match o with
  | None => false
  | Some EmptyString => false
  | Some _ => true
  end.
#[global] Arguments truthy : simpl never.

(** *** The regular expression [LABEL\s*([\d.]+)] *)

Fixpoint strip_prefix (p s : string) : option string :=
  match p, s with
  | EmptyString, _ => Some s
  | String a p', String b s' => if Ascii.eqb a b then strip_prefix p' s' else None
  | String _ _, EmptyString => None
  end.

(** The longest prefix of [s] made of characters of [[\d.]]. *)
Fixpoint take_numeric (s : string) : string :=
  match s with
  | EmptyString => ""
  | String c s' => if isnumchar c then String c (take_numeric s') else ""
  end.

(** A match of [LABEL\s*([\d.]+)] that starts at the first character of
    [s]; the result is group 1.  The classes [\s] and [[\d.]] are disjoint,
    so the greedy match is the only one. *)
Definition match_here (label s : string) : option string :=
  match strip_prefix label s with
  | None => None
  | Some r =>
      match take_numeric (lstrip r) with
      | EmptyString => None
      | cap => Some cap
      end
  end.

(** [re.search(LABEL\s*([\d.]+), s)]: the match at the leftmost position
    that has one; [None] when there is none. *)
Fixpoint re_search (label s : string) : option string :=
  match match_here label s with
  | Some cap => Some cap
  | None =>
      match s with
      | EmptyString => None
      | String _ s' => re_search label s'
      end
  end.

(** [m.group(1)] on the result of [re.search]. *)
Definition group1 (m : option string) : result string :=
  match m with
  | Some cap => Ok cap
  | None => Raise AttributeError
  end.

(** *** Floats *)

(** A non-negative decimal: integer part and fractional digits, the latter
    with no trailing zero ([150.5] is [{| ipart := 150; fpart := "5" |}]). *)
Record pyfloat : Type := mkfloat { ipart : N; fpart : string }.

(** Every character of [s] satisfies [p]. *)
Definition all_of (p : ascii -> bool) (s : string) : bool :=
  forallb p (list_ascii_of_string s).

Definition all_digits (s : string) : bool := all_of isdigit s.

(** The number a string of digits denotes (0 for the empty string). *)
Definition digits_value (s : string) : N :=
  match NilEmpty.uint_of_string s with
  | Some u => N.of_uint u
  | None => 0%N
  end.

Fixpoint strip_zeros_r (s : string) : string :=
  match s with
  | EmptyString => ""
  | String c s' =>
      match strip_zeros_r s' with
      | EmptyString => if Ascii.eqb c "0" then "" else String c ""
      | r => String c r
      end
  end.

(** The text before the first ["."] and the text after it, if any. *)
Fixpoint cut_point (s : string) : string * option string :=
  match s with
  | EmptyString => ("", None)
  | String c s' =>
      if Ascii.eqb c "." then ("", Some s')
      else let (i, f) := cut_point s' in (String c i, f)
  end.

(** [float(s)] on the strings the capture group [([\d.]+)] can hold: digits
    with at most one point and at least one digit ("12", "12.5", "12.",
    ".5"); anything else is a [ValueError]. *)
Definition float (s : string) : result pyfloat :=
  let (i, o) := cut_point s in
  let f := match o with Some f => f | None => "" end in
  if all_digits i && all_digits f && negb (String.eqb (i ++ f) "")
  then Ok (mkfloat (digits_value i) (strip_zeros_r f))
  else Raise ValueError.

(** [str(n)] for a natural number. *)
Definition str_int (n : N) : string := NilZero.string_of_uint (N.to_uint n).

(** [str(x)], in positional notation: "150.5", "12.0".  Python prints a float
    below 1e-4 or from 1e16 on with an exponent, and one with more than 17
    significant digits rounded; the decimals of this model are printed in
    full.  In both forms only digits, a point, a sign or the letter e
    occur. *)
Definition str_float (x : pyfloat) : string :=
  str_int (ipart x) ++ "." ++
  match fpart x with
  | EmptyString => "0"
  | f => f
  end.

(** The rational value of a float. *)
Definition Qvalue (x : pyfloat) : Q :=
  (inject_Z (Z.of_N (ipart x))
   + (Z.of_N (digits_value (fpart x))
      # Z.to_pos (10 ^ Z.of_nat (String.length (fpart x)))))%Q.

(** [np.mean(l)] for a non-empty list. *)
Definition mean (l : list pyfloat) : Q :=
  Qred (fold_right (fun x acc => Qvalue x + acc) 0 l
        / inject_Z (Z.of_nat (List.length l)))%Q.

(** *** Dictionaries with string keys, in insertion order *)

Definition dict (V : Type) : Type := list (string * V).

(** [d[k]] *)
Fixpoint lookup {V} (d : dict V) (k : string) : result V :=
  match d with
  | [] => Raise (KeyError k)
  | (k', v) :: d' => if String.eqb k' k then Ok v else lookup d' k
  end.

(** [d[k].append(x)] for a dictionary of lists: the list is updated in
    place, so the key keeps its position. *)
Fixpoint append_at {A} (d : dict (list A)) (k : string) (x : A)
  : result (dict (list A)) :=
  match d with
  | [] => Raise (KeyError k)
  | (k', v) :: d' =>
      if String.eqb k' k then Ok ((k', (v ++ [x])%list) :: d')
      else bind (append_at d' k x) (fun d'' => Ok ((k', v) :: d''))
  end.

(** [zip(a, b)] *)
Definition zip {A B} (a : list A) (b : list B) : list (A * B) := combine a b.

End Py.

Import Py.

Notation "x <- c1 ;; c2" := (bind c1 (fun x => c2))
  (at level 61, c1 at next level, right associativity).

(** ** Reading the report *)

Definition LF : ascii := "010"%char.
Definition CR : ascii := "013"%char.
Definition NL : string := String LF "".

(** The lines a text file yields when it is iterated over, with Python's
    universal newlines: every line keeps its terminator, and the terminators
    CR LF and CR are read as LF.  [cur] is the line being read. *)
Fixpoint readlines_from (s cur : string) : list string :=
  match s with
  | EmptyString => match cur with EmptyString => [] | _ => [cur] end
  | String c s' =>
      if Ascii.eqb c LF then (cur ++ NL) :: readlines_from s' ""
      else if Ascii.eqb c CR then
        match s' with
        | String c' s'' =>
            if Ascii.eqb c' LF then (cur ++ NL) :: readlines_from s'' ""
            else (cur ++ NL) :: readlines_from s' ""
        | EmptyString => (cur ++ NL) :: readlines_from s' ""
        end
      else readlines_from s' (cur ++ String c "")
  end.

Definition readlines (text : string) : list string := readlines_from text "".

(** ** [parse_benchmark_results] *)

Definition samples : Type := dict (list pyfloat).
Definition labels : Type := dict (list (option string)).

(** The local variables of [parse_benchmark_results]. *)
Record scan : Type := mkscan {
  results : samples;
  configs : labels;
  current_method : option string;
  current_config : option string
}.

Definition scan0 : scan :=
  {| results := [("GET", []); ("POST", []); ("WebSocket", [])];
     configs := [("GET", []); ("POST", []); ("WebSocket", [])];
     current_method := None;
     current_config := None |}.

(** The tests of the [if]/[elif] chain. *)
Definition is_section (line : string) : bool :=
  contains "=== " line && contains " Benchmark ===" line.
Definition is_method (line : string) : bool := contains "Method: " line.
Definition is_throughput (line : string) : bool := contains "Requests/second:" line.
Definition is_websocket (line : string) : bool :=
  contains "WebSocket messages/second:" line.

(** [float(re.search(LABEL\s*([\d.]+), line).group(1))] *)
Definition extract (label line : string) : result pyfloat :=
  cap <- group1 (re_search label line) ;;
  float cap.

(** One iteration of the loop over the lines. *)
Definition step (st : scan) (line : string) : result scan :=
  if is_section line then
    a <- getitem (split "=== " line) 1 ;;
    b <- getitem (split " Benchmark" a) 0 ;;
    Ok (mkscan (results st) (configs st) (current_method st) (Some b))
  else if is_method line then
    a <- getitem (split "Method: " line) 1 ;;
    Ok (mkscan (results st) (configs st) (Some (strip a)) (current_config st))
  else if is_throughput line then
    rps <- extract "Requests/second:" line ;;
    match current_method st with
    | Some m =>
        (* [if current_method:] *)
        if truthy (Some m) then
          r <- append_at (results st) m rps ;;
          c <- append_at (configs st) m (current_config st) ;;
          Ok (mkscan r c (current_method st) (current_config st))
        else Ok st
    | None => Ok st
    end
  else if is_websocket line then
    mps <- extract "messages/second:" line ;;
    r <- append_at (results st) "WebSocket" mps ;;
    c <- append_at (configs st) "WebSocket" (current_config st) ;;
    Ok (mkscan r c (current_method st) (current_config st))
  else Ok st.

(** The loop, from a given state: the first exception ends it. *)
Fixpoint scan_lines (st : scan) (lines : list string) : result scan :=
  match lines with
  | [] => Ok st
  | line :: rest => st' <- step st line ;; scan_lines st' rest
  end.

(** The function on the lines of the report. *)
Definition parse_lines (lines : list string) : result (samples * labels) :=
  st <- scan_lines scan0 lines ;;
  Ok (results st, configs st).

(** The files that exist before the run: a path has a text or none. *)
Definition disk : Type := string -> option string.

Definition parse_benchmark_results (d : disk) (file_path : string)
  : result (samples * labels) :=
  match d file_path with
  | None => Raise FileNotFoundError
  | Some text => parse_lines (readlines text)
  end.

(** ** Output: figures and files *)

(** What a saved figure shows. *)
Inductive figure : Type :=
| HttpComparison (methods : list string) (basic_means high_means : list Q)
| WebSocketPerformance (height : Q)
| PerformanceTimeline (all_results : list pyfloat) (ticks colors : list string).

Inductive content : Type :=
| Image (fig : figure)
| Text (s : string).

(** The files written so far, oldest first. *)
Definition files : Type := list (string * content).

(** Create or overwrite [path]. *)
Fixpoint put (fs : files) (path : string) (c : content) : files :=
  match fs with
  | [] => [(path, c)]
  | (p, c') :: fs' =>
      if String.eqb p path then (p, c) :: fs' else (p, c') :: put fs' path c
  end.

(** Append [s] to the text file [path]. *)
Fixpoint extend (fs : files) (path s : string) : files :=
  match fs with
  | [] => []
  | (p, c) :: fs' =>
      if String.eqb p path then
        (p, match c with Text t => Text (t ++ s) | Image _ => Text s end) :: fs'
      else (p, c) :: extend fs' path s
  end.

(** Computations that write files and may raise. *)
Definition io (A : Type) : Type := files -> files * result A.

Definition ret {A} (a : A) : io A := fun fs => (fs, Ok a).
Definition lift {A} (r : result A) : io A := fun fs => (fs, r).
Definition bind_io {A B} (m : io A) (k : A -> io B) : io B :=
  fun fs =>
    match m fs with
    | (fs', Ok a) => k a fs'
    | (fs', Raise e) => (fs', Raise e)
    end.

Notation "x <~ c1 ;; c2" := (bind_io c1 (fun x => c2))
  (at level 61, c1 at next level, right associativity).

(** [plt.savefig(path)] *)
Definition savefig (path : string) (fig : figure) : io unit :=
  fun fs => (put fs path (Image fig), Ok tt).
(** [open(path, 'w')] *)
Definition open_w (path : string) : io unit :=
  fun fs => (put fs path (Text ""), Ok tt).
(** [f.write(s)] *)
Definition write (path s : string) : io unit :=
  fun fs => (extend fs path s, Ok tt).

(** [for x in l: body x] *)
Fixpoint for_each {A} (l : list A) (body : A -> io unit) : io unit :=
  match l with
  | [] => ret tt
  | x :: l' => _ <~ body x ;; for_each l' body
  end.

(** ** The chart renderers *)

(** [sub in cfg], where [cfg] may be [None]. *)
Definition contains_opt (sub : string) (cfg : option string) : result bool :=
  match cfg with
  | Some c => Ok (contains sub c)
  | None => Raise TypeError
  end.

(** [[rps for rps, cfg in pairs if sub in cfg]] *)
Fixpoint select (sub : string) (pairs : list (pyfloat * option string))
  : result (list pyfloat) :=
  match pairs with
  | [] => Ok []
  | (rps, cfg) :: rest =>
      b <- contains_opt sub cfg ;;
      l <- select sub rest ;;
      Ok (if b then rps :: l else l)
  end.

(** [np.mean(l) if l else 0] *)
Definition mean_or_0 (l : list pyfloat) : Q :=
  match l with
  | [] => 0%Q
  | _ => mean l
  end.

(** The loop of [plot_http_comparison]: the lists [basic_means] and
    [high_means] after the methods in [methods] have been visited. *)
Fixpoint http_means (results : samples) (configs : labels) (methods : list string)
  : result (list Q * list Q) :=
  match methods with
  | [] => Ok ([], [])
  | method :: rest =>
      r1 <- lookup results method ;;
      c1 <- lookup configs method ;;
      basic_rps <- select "Basic" (zip r1 c1) ;;
      r2 <- lookup results method ;;
      c2 <- lookup configs method ;;
      high_rps <- select "High Concurrency" (zip r2 c2) ;;
      p <- http_means results configs rest ;;
      Ok (mean_or_0 basic_rps :: fst p, mean_or_0 high_rps :: snd p)
  end.

Definition plot_http_comparison (results : samples) (configs : labels)
    (output_dir : string) : io unit :=
  let methods := ["GET"; "POST"] in
  p <~ lift (http_means results configs methods) ;;
  savefig (output_dir ++ "/http_comparison.png")
          (HttpComparison methods (fst p) (snd p)).

Definition plot_websocket_performance (results : samples) (output_dir : string)
  : io unit :=
  ws <~ lift (lookup results "WebSocket") ;;
  match ws with
  | [] => ret tt
  | _ =>
      savefig (output_dir ++ "/websocket_performance.png")
              (WebSocketPerformance (mean ws))
  end.

(** [str(cfg)] inside an f-string. *)
Definition str_opt (cfg : option string) : string :=
  match cfg with
  | Some c => c
  | None => "None"
  end.

Definition color_of (method : string) : string :=
  if String.eqb method "GET" then "blue"
  else if String.eqb method "POST" then "green" else "red".

(** The loop of [plot_timeline]: one (value, tick label, colour) per bar. *)
Fixpoint timeline_bars (results : samples) (configs : labels) (methods : list string)
  : result (list (pyfloat * string * string)) :=
  match methods with
  | [] => Ok []
  | method :: rest =>
      r <- lookup results method ;;
      c <- lookup configs method ;;
      bars <- timeline_bars results configs rest ;;
      Ok (List.app
            (map (fun '(rps, cfg) =>
                    (rps, method ++ NL ++ str_opt cfg, color_of method)) (zip r c))
            bars)
  end.

Definition plot_timeline (results : samples) (configs : labels)
    (output_dir : string) : io unit :=
  bars <~ lift (timeline_bars results configs ["GET"; "POST"; "WebSocket"]) ;;
  savefig (output_dir ++ "/performance_timeline.png")
          (PerformanceTimeline (map (fun b => fst (fst b)) bars)
                               (map (fun b => snd (fst b)) bars)
                               (map snd bars)).

(** ** [main] *)

Definition usage : string :=
  "Usage: python plot_benchmarks.py <benchmark_report_file>" ++ NL.

Definition csv_header : string := "Method,Configuration,RequestsPerSecond" ++ NL.

(** [f'{method},{cfg},{rps}\n'] *)
Definition csv_row (method : string) (cfg : option string) (rps : pyfloat) : string :=
  method ++ "," ++ str_opt cfg ++ "," ++ str_float rps ++ NL.

(** ['/'.join(report_file.split('/')[:-1])] *)
Definition output_dir_of (report_file : string) : string :=
  join "/" (but_last (split "/" report_file)).

(** The [with open(...) as f:] block that saves the raw data. *)
Definition write_csv (results : samples) (configs : labels) (output_dir : string)
  : io unit :=
  let path := output_dir ++ "/benchmark_data.csv" in
  _ <~ open_w path ;;
  _ <~ write path csv_header ;;
  for_each (map fst results) (fun method =>
    r <~ lift (lookup results method) ;;
    c <~ lift (lookup configs method) ;;
    for_each (zip r c) (fun '(rps, cfg) => write path (csv_row method cfg rps))).

(** How a run ends. *)
Inductive status : Type :=
| Exit (code : nat)
| Uncaught (e : exn).

Record outcome : Type := mkoutcome {
  written : files;
  stdout : string;
  exit_status : status
}.

(** The body of [main] after the argument check. *)
Definition run (d : disk) (report_file : string) : io unit :=
  let output_dir := output_dir_of report_file in
  p <~ lift (parse_benchmark_results d report_file) ;;
  let results := fst p in
  let configs := snd p in
  _ <~ plot_http_comparison results configs output_dir ;;
  _ <~ plot_websocket_performance results output_dir ;;
  _ <~ plot_timeline results configs output_dir ;;
  write_csv results configs output_dir.

(** [main], given [sys.argv] and the files on disk. *)
Definition main (argv : list string) (d : disk) : outcome :=
  match argv with
  | [_; report_file] =>
      match run d report_file [] with
      | (fs, Ok _) => mkoutcome fs "" (Exit 0)
      | (fs, Raise e) => mkoutcome fs "" (Uncaught e)
      end
  | _ => mkoutcome [] usage (Exit 1)
  end.

(** A disk that holds one file. *)
Definition one_file (path text : string) : disk :=
  fun p => if String.eqb p path then Some text else None.

(** ** Notions of the specification *)

(** A line handled by the first branch of the chain, and one handled by the
    second. *)
Definition section_marker (line : string) : bool := is_section line.
Definition method_marker (line : string) : bool :=
  negb (is_section line) && is_method line.

(** A line that reaches the ["Requests/second:"] branch, and one that reaches
    the ["WebSocket messages/second:"] branch. *)
Definition throughput_line (line : string) : bool :=
  negb (is_section line) && negb (is_method line) && is_throughput line.
Definition websocket_line (line : string) : bool :=
  negb (is_section line) && negb (is_method line) && negb (is_throughput line)
  && is_websocket line.

(** The Sample of the data model that a line contributes, if any: the value,
    tagged with its method and with the configuration label that is current
    when the line is read. *)
Definition sample_of (st : scan) (line : string)
  : list (string * pyfloat * option string) :=
  if throughput_line line then
    match extract "Requests/second:" line, current_method st with
    | Ok v, Some m => if truthy (Some m) then [(m, v, current_config st)] else []
    | _, _ => []
    end
  else if websocket_line line then
    match extract "messages/second:" line with
    | Ok v => [("WebSocket", v, current_config st)]
    | Raise _ => []
    end
  else [].

(** The Samples in the order in which the scan meets them. *)
Fixpoint encountered_from (st : scan) (lines : list string)
  : list (string * pyfloat * option string) :=
  match lines with
  | [] => []
  | line :: rest =>
      match step st line with
      | Ok st' => List.app (sample_of st line) (encountered_from st' rest)
      | Raise _ => []
      end
  end.

Definition encountered (lines : list string) := encountered_from scan0 lines.

(** The (value, label) pairs of one method, in order. *)
Definition of_method (m : string) (log : list (string * pyfloat * option string))
  : list (pyfloat * option string) :=
  map (fun t => (snd (fst t), snd t))
      (filter (fun t => String.eqb (fst (fst t)) m) log).

(** The decimal-number pattern of the specification, [\d+(\.\d+)?]. *)
Fixpoint take_digits (s : string) : string :=
  match s with
  | EmptyString => ""
  | String c s' => if isdigit c then String c (take_digits s') else ""
  end.

Fixpoint drop_digits (s : string) : string :=
  match s with
  | EmptyString => ""
  | String c s' => if isdigit c then drop_digits s' else s
  end.

(** A match of [\d+(\.\d+)?] that starts at the first character of [s]. *)
Definition decimal_here (s : string) : option string :=
  match take_digits s with
  | EmptyString => None
  | i =>
      match drop_digits s with
      | String c r =>
          if Ascii.eqb c "." then
            match take_digits r with
            | EmptyString => Some i
            | f => Some (i ++ "." ++ f)
            end
          else Some i
      | EmptyString => Some i
      end
  end.

(** The first match of [\d+(\.\d+)?] in [s]. *)
Fixpoint first_decimal (s : string) : option string :=
  match decimal_here s with
  | Some d => Some d
  | None =>
      match s with
      | EmptyString => None
      | String _ s' => first_decimal s'
      end
  end.

(** What follows the first occurrence of [label] in [line]. *)
Fixpoint after_label (label line : string) : option string :=
  match strip_prefix label line with
  | Some r => Some r
  | None =>
      match line with
      | EmptyString => None
      | String _ s' => after_label label s'
      end
  end.

(** Numeric extraction as the specification words it: the first match of the
    decimal-number pattern found after the triggering label. *)
Definition first_decimal_after (label line : string) : option string :=
  match after_label label line with
  | Some r => first_decimal r
  | None => None
  end.

(** [s] is one match of [\d+(\.\d+)?], all of it. *)
Definition is_decimal (s : string) : bool :=
  match decimal_here s with
  | Some d => String.eqb d s
  | None => false
  end.

(** No match of [LABEL\s*([\d.]+)] starts inside [pre] in [pre ++ tail]. *)
Fixpoint unmatched_before (label pre tail : string) : bool :=
  match pre with
  | EmptyString => true
  | String _ pre' =>
      match match_here label (pre ++ tail) with
      | Some _ => false
      | None => unmatched_before label pre' tail
      end
  end.




(** The content of [path] among the files written. *)
Fixpoint get_file (fs : files) (path : string) : option content :=
  match fs with
  | [] => None
  | (p, c) :: fs' => if String.eqb p path then Some c else get_file fs' path
  end.



(** A line without its final line feed. *)
Fixpoint chomp (s : string) : string :=
  match s with
  | EmptyString => ""
  | String c s' =>
      match s' with
      | EmptyString => if Ascii.eqb c LF then "" else s
      | _ => String c (chomp s')
      end
  end.

(** Reading one data row of the CSV back: three comma-separated fields. *)
Definition read_row (line : string) : option (string * string * pyfloat) :=
  match split "," (chomp line) with
  | [m; c; v] =>
      match float v with
      | Ok x => Some (m, c, x)
      | Raise _ => None
      end
  | _ => None
  end.

Fixpoint read_rows (rows : list string) : option (list (string * string * pyfloat)) :=
  match rows with
  | [] => Some []
  | row :: rest =>
      match read_row row, read_rows rest with
      | Some t, Some ts => Some (t :: ts)
      | _, _ => None
      end
  end.

(** Reading the CSV back: the header, then the rows. *)
Definition read_csv (text : string) : option (list (string * string * pyfloat)) :=
  match readlines text with
  | header :: rows => if String.eqb header csv_header then read_rows rows else None
  | [] => None
  end.

(** A field that the CSV can carry: no comma and no line terminator. *)
Definition plain_char (c : ascii) : bool :=
  negb (Ascii.eqb c ",") && negb (Ascii.eqb c LF) && negb (Ascii.eqb c CR).
Definition plain (s : string) : bool := all_of plain_char s.








(** The names of the output files, as appended to the output directory. *)
Definition output_names : list string :=
  ["/http_comparison.png"; "/websocket_performance.png";
   "/performance_timeline.png"; "/benchmark_data.csv"].

(** A computation that creates no file outside the paths [S]. *)
Definition writes_within {A} (S : list string) (m : io A) : Prop :=
  forall fs fs' r p,
    m fs = (fs', r) -> In p (map fst fs') -> In p S \/ In p (map fst fs).

(** The keys of the two dictionaries of the scan. *)
Definition methods3 : list string := ["GET"; "POST"; "WebSocket"].

Definition has_keys (st : scan) : Prop :=
  map fst (results st) = methods3 /\ map fst (configs st) = methods3.

(** No occurrence of [sep] starts inside [a] in [a ++ tail]. *)
Fixpoint absent_before (sep a tail : string) : bool :=
  match a with
  | EmptyString => true
  | String _ a' => negb (prefix sep (a ++ tail)) && absent_before sep a' tail
  end.

(** A line that some branch of the chain tests for. *)
Definition relevant (line : string) : bool :=
  is_section line || is_method line || is_throughput line || is_websocket line.

(** The exceptions that the scan of a report can raise: the two of a failed
    extraction, and the key-lookup error of a current method that is none of
    the three keys. *)
Definition parse_error (e : exn) : Prop :=
  e = AttributeError \/ e = ValueError \/
  exists m, e = KeyError m /\ m <> "" /\ ~ In m methods3.

(** * Properties *)

(** ** Strings *)

Lemma sapp_assoc (a b c : string) : (a ++ b) ++ c = a ++ (b ++ c).
Proof. induction a as [|x a IH]; simpl; [reflexivity|]. rewrite IH. reflexivity. Qed.

Lemma sapp_nil_r (a : string) : a ++ "" = a.
Proof. induction a as [|x a IH]; simpl; [reflexivity|]. rewrite IH. reflexivity. Qed.

Lemma slength_app (a b : string) :
  String.length (a ++ b) = String.length a + String.length b.
Proof. induction a as [|x a IH]; simpl; [reflexivity|]. rewrite IH. reflexivity. Qed.


Lemma sapp_eq_self (a b : string) : a ++ b = a -> b = "".
Proof.
  intros H. apply (f_equal String.length) in H. rewrite slength_app in H.
  destruct b; [reflexivity|simpl in H; lia].
Qed.

Lemma all_of_cons p c s : all_of p (String c s) = p c && all_of p s.
Proof. reflexivity. Qed.

Lemma all_of_app p a b : all_of p (a ++ b) = all_of p a && all_of p b.
Proof.
  induction a as [|x a IH]; [reflexivity|].
  cbn [append]. rewrite !all_of_cons, IH. apply andb_assoc.
Qed.

Lemma strip_prefix_app p s : strip_prefix p (p ++ s) = Some s.
Proof.
  induction p as [|a p IH]; simpl; [destruct s; reflexivity|].
  rewrite Ascii.eqb_refl. exact IH.
Qed.

Lemma strip_prefix_inv p : forall s r, strip_prefix p s = Some r -> s = p ++ r.
Proof.
  induction p as [|a p IH]; intros s r H.
  - destruct s; simpl in H; injection H as <-; reflexivity.
  - destruct s as [|b s]; simpl in H; [discriminate|].
    destruct (Ascii.eqb a b) eqn:E; [|discriminate].
    apply Ascii.eqb_eq in E. subst b. simpl. f_equal. auto.
Qed.

Lemma lstrip_decomp s :
  exists ws, s = ws ++ lstrip s /\ all_of isspace ws = true.
Proof.
  induction s as [|c s [ws [H1 H2]]]; [exists ""; auto|].
  simpl. destruct (isspace c) eqn:E.
  - exists (String c ws). simpl. rewrite <- H1, all_of_cons, E, H2. auto.
  - exists "". auto.
Qed.

Lemma lstrip_spaces ws s : all_of isspace ws = true -> lstrip (ws ++ s) = lstrip s.
Proof.
  induction ws as [|c ws IH]; [reflexivity|].
  rewrite all_of_cons. intros H. apply andb_prop in H. destruct H as [H1 H2].
  simpl. rewrite H1. auto.
Qed.

Lemma take_numeric_decomp s :
  exists rest, s = take_numeric s ++ rest /\ take_numeric rest = "" /\
               all_of isnumchar (take_numeric s) = true.
Proof.
  induction s as [|c s (rest & H1 & H2 & H3)]; [exists ""; auto|].
  simpl. destruct (isnumchar c) eqn:E.
  - exists rest. simpl. rewrite <- H1, all_of_cons, E, H3. auto.
  - exists (String c s). simpl. rewrite E. auto.
Qed.

Lemma take_numeric_app d rest :
  all_of isnumchar d = true -> take_numeric rest = "" -> take_numeric (d ++ rest) = d.
Proof.
  intros Hd Hr. induction d as [|c d IH]; [exact Hr|].
  rewrite all_of_cons in Hd. apply andb_prop in Hd. destruct Hd as [H1 H2].
  simpl. rewrite H1, (IH H2). reflexivity.
Qed.

Lemma isnumchar_not_space c : isnumchar c = true -> isspace c = false.
Proof.
  destruct c as [[] [] [] [] [] [] [] []]; vm_compute; congruence.
Qed.

Lemma isdigit_numchar c : isdigit c = true -> isnumchar c = true.
Proof. unfold isnumchar. intros ->. reflexivity. Qed.

Lemma isdigit_not_point c : isdigit c = true -> Ascii.eqb c "." = false.
Proof.
  destruct c as [[] [] [] [] [] [] [] []]; vm_compute; congruence.
Qed.

Lemma lstrip_numeric d s :
  d <> "" -> all_of isnumchar d = true -> lstrip (d ++ s) = d ++ s.
Proof.
  destruct d as [|c d]; [congruence|]. intros _ H.
  rewrite all_of_cons in H. apply andb_prop in H. destruct H as [H _].
  simpl. rewrite (isnumchar_not_space c H). reflexivity.
Qed.

(** ** Dictionaries *)

Lemma lookup_append_at {A} (d d' : dict (list A)) k x :
  append_at d k x = Ok d' ->
  exists v, lookup d k = Ok v /\ lookup d' k = Ok (v ++ [x])%list.
Proof.
  revert d'; induction d as [|[k0 v0] d IH]; simpl; intros d' H; [discriminate|].
  destruct (String.eqb k0 k) eqn:E.
  - injection H as <-. exists v0. simpl. rewrite E. auto.
  - destruct (append_at d k x) as [d1|e] eqn:E1; simpl in H; [|discriminate].
    injection H as <-. destruct (IH _ eq_refl) as [v [H1 H2]].
    exists v. simpl. rewrite E. auto.
Qed.

Lemma lookup_append_at_other {A} (d d' : dict (list A)) k k' x :
  append_at d k x = Ok d' -> k' <> k -> lookup d' k' = lookup d k'.
Proof.
  revert d'; induction d as [|[k0 v0] d IH]; simpl; intros d' H Hne; [discriminate|].
  destruct (String.eqb k0 k) eqn:E.
  - injection H as <-. apply String.eqb_eq in E; subst k0. simpl.
    destruct (String.eqb k k') eqn:E'; [|reflexivity].
    apply String.eqb_eq in E'. congruence.
  - destruct (append_at d k x) as [d1|e] eqn:E1; simpl in H; [|discriminate].
    injection H as <-. simpl. destruct (String.eqb k0 k'); eauto.
Qed.

Lemma append_at_keys {A} (d d' : dict (list A)) k x :
  append_at d k x = Ok d' -> map fst d' = map fst d.
Proof.
  revert d'; induction d as [|[k0 v0] d IH]; simpl; intros d' H; [discriminate|].
  destruct (String.eqb k0 k).
  - injection H as <-. reflexivity.
  - destruct (append_at d k x) as [d1|e]; simpl in H; [|discriminate].
    injection H as <-. simpl. f_equal. auto.
Qed.

Lemma lookup_in_keys {V} (d : dict V) k :
  In k (map fst d) -> exists v, lookup d k = Ok v.
Proof.
  induction d as [|[k0 v0] d IH]; simpl; [tauto|].
  intros [->|H].
  - rewrite String.eqb_refl. eauto.
  - destruct (String.eqb k0 k); eauto.
Qed.

Lemma lookup_not_in_keys {V} (d : dict V) k :
  ~ In k (map fst d) -> lookup d k = Raise (KeyError k).
Proof.
  induction d as [|[k0 v0] d IH]; simpl; [reflexivity|].
  intros H. destruct (String.eqb k0 k) eqn:E.
  - apply String.eqb_eq in E. tauto.
  - apply IH. tauto.
Qed.

Lemma append_at_in_keys {A} (d : dict (list A)) k x :
  In k (map fst d) -> exists d', append_at d k x = Ok d'.
Proof.
  induction d as [|[k0 v0] d IH]; simpl; [tauto|].
  intros H. destruct (String.eqb k0 k) eqn:E; [eauto|].
  assert (Hin : In k (map fst d)).
  { destruct H as [->|H]; [rewrite String.eqb_refl in E; discriminate|exact H]. }
  destruct (IH Hin) as [d' ->]. simpl. eauto.
Qed.

Lemma append_at_not_in_keys {A} (d : dict (list A)) k x :
  ~ In k (map fst d) -> append_at d k x = Raise (KeyError k).
Proof.
  induction d as [|[k0 v0] d IH]; simpl; [reflexivity|].
  intros H. destruct (String.eqb k0 k) eqn:E.
  - apply String.eqb_eq in E. tauto.
  - rewrite IH by tauto. reflexivity.
Qed.

(** ** The scan keeps the three keys *)

Lemma has_keys_scan0 : has_keys scan0.
Proof. split; reflexivity. Qed.

Lemma step_has_keys st line st' :
  has_keys st -> step st line = Ok st' -> has_keys st'.
Proof.
  intros [Hr Hc]. unfold step.
  destruct (is_section line).
  { destruct (getitem (split "=== " line) 1) as [a|]; simpl; [|discriminate].
    destruct (getitem (split " Benchmark" a) 0); simpl; [|discriminate].
    intros [= <-]. split; assumption. }
  destruct (is_method line).
  { destruct (getitem (split "Method: " line) 1); simpl; [|discriminate].
    intros [= <-]. split; assumption. }
  destruct (is_throughput line).
  { destruct (extract "Requests/second:" line) as [rps|]; simpl; [|discriminate].
    destruct (current_method st) as [m|]; [|intros [= <-]; split; assumption].
    destruct (truthy (Some m)); [|intros [= <-]; split; assumption].
    destruct (append_at (results st) m rps) as [r|] eqn:Er; simpl; [|discriminate].
    destruct (append_at (configs st) m (current_config st)) as [c|] eqn:Ec;
      simpl; [|discriminate].
    intros [= <-]. split; simpl.
    - rewrite (append_at_keys _ _ _ _ Er). assumption.
    - rewrite (append_at_keys _ _ _ _ Ec). assumption. }
  destruct (is_websocket line); [|intros [= <-]; split; assumption].
  destruct (extract "messages/second:" line) as [mps|]; simpl; [|discriminate].
  destruct (append_at (results st) "WebSocket" mps) as [r|] eqn:Er; simpl; [|discriminate].
  destruct (append_at (configs st) "WebSocket" (current_config st)) as [c|] eqn:Ec;
    simpl; [|discriminate].
  intros [= <-]. split; simpl.
  - rewrite (append_at_keys _ _ _ _ Er). assumption.
  - rewrite (append_at_keys _ _ _ _ Ec). assumption.
Qed.

Lemma scan_lines_has_keys lines : forall st st',
  has_keys st -> scan_lines st lines = Ok st' -> has_keys st'.
Proof.
  induction lines as [|line rest IH]; simpl; intros st st' Hk H.
  - injection H as <-. assumption.
  - destruct (step st line) as [st1|] eqn:E; simpl in H; [|discriminate].
    eapply IH; [|exact H]. eapply step_has_keys; eauto.
Qed.

Lemma scan_lines_app pre : forall st post,
  scan_lines st (pre ++ post) = (st' <- scan_lines st pre ;; scan_lines st' post).
Proof.
  induction pre as [|l pre IH]; simpl; intros st post; [reflexivity|].
  destruct (step st l); simpl; auto.
Qed.

(** ** The branches of the chain *)

Lemma split_from_length sep s : forall skip cur,
  1 <= List.length (split_from sep s skip cur).
Proof.
  induction s as [|c s IH]; cbn [split_from]; intros skip cur; [simpl; lia|].
  destruct skip; [|apply IH].
  destruct (prefix sep (String c s)); [apply le_n_S, Nat.le_0_l|apply IH].
Qed.

Lemma split_length_contains a sep s : forall cur,
  contains (String a sep) s = true ->
  2 <= List.length (split_from (String a sep) s 0 cur).
Proof.
  induction s as [|c s IH]; intros cur H.
  - discriminate.
  - cbn [split_from]. destruct (prefix (String a sep) (String c s)) eqn:E.
    + cbn [List.length]. apply le_n_S, split_from_length.
    + apply IH. cbn [contains] in H. rewrite E in H. exact H.
Qed.

Lemma getitem_split_1 a sep s :
  contains (String a sep) s = true ->
  exists x, getitem (split (String a sep) s) 1 = Ok x.
Proof.
  intros H. pose proof (split_length_contains a sep s "" H) as L.
  unfold split, getitem.
  destruct (split_from (String a sep) s 0 "") as [|x [|y l]]; simpl in *; try lia.
  eauto.
Qed.

Lemma getitem_split_0 sep s :
  exists x, getitem (split sep s) 0 = Ok x.
Proof.
  pose proof (split_from_length sep s 0 "") as L.
  unfold split, getitem.
  destruct (split_from sep s 0 "") as [|x l]; simpl in *; try lia.
  eauto.
Qed.

(** A section marker never raises: it only sets the configuration label. *)
Lemma step_section st line :
  is_section line = true ->
  exists b, step st line =
            Ok (mkscan (results st) (configs st) (current_method st) (Some b)).
Proof.
  intros H. unfold step. rewrite H.
  assert (Hc : contains "=== " line = true).
  { unfold is_section in H. apply andb_prop in H. tauto. }
  destruct (getitem_split_1 _ _ _ Hc) as [a ->]. simpl.
  destruct (getitem_split_0 " Benchmark" a) as [b ->]. simpl. eauto.
Qed.

(** A method marker never raises: it only sets the current method. *)
Lemma step_method st line :
  is_section line = false -> is_method line = true ->
  exists a, getitem (split "Method: " line) 1 = Ok a /\
            step st line =
            Ok (mkscan (results st) (configs st) (Some (strip a)) (current_config st)).
Proof.
  intros H1 H2. unfold step. rewrite H1, H2.
  destruct (getitem_split_1 _ _ _ H2) as [a Ha]. rewrite Ha. simpl. eauto.
Qed.

Lemma step_throughput st line :
  is_section line = false -> is_method line = false -> is_throughput line = true ->
  step st line =
  (rps <- extract "Requests/second:" line ;;
   match current_method st with
   | Some m =>
       if truthy (Some m) then
         r <- append_at (results st) m rps ;;
         c <- append_at (configs st) m (current_config st) ;;
         Ok (mkscan r c (current_method st) (current_config st))
       else Ok st
   | None => Ok st
   end).
Proof. intros H1 H2 H3. unfold step. rewrite H1, H2, H3. reflexivity. Qed.

Lemma step_websocket st line :
  is_section line = false -> is_method line = false ->
  is_throughput line = false -> is_websocket line = true ->
  step st line =
  (mps <- extract "messages/second:" line ;;
   r <- append_at (results st) "WebSocket" mps ;;
   c <- append_at (configs st) "WebSocket" (current_config st) ;;
   Ok (mkscan r c (current_method st) (current_config st))).
Proof. intros H1 H2 H3 H4. unfold step. rewrite H1, H2, H3, H4. reflexivity. Qed.

Lemma step_other st line :
  is_section line = false -> is_method line = false ->
  is_throughput line = false -> is_websocket line = false ->
  step st line = Ok st.
Proof. intros H1 H2 H3 H4. unfold step. rewrite H1, H2, H3, H4. reflexivity. Qed.

Lemma throughput_line_inv line :
  throughput_line line = true ->
  is_section line = false /\ is_method line = false /\ is_throughput line = true.
Proof.
  unfold throughput_line.
  destruct (is_section line), (is_method line), (is_throughput line);
    simpl; intros H; try discriminate; auto.
Qed.

Lemma websocket_line_inv line :
  websocket_line line = true ->
  is_section line = false /\ is_method line = false /\
  is_throughput line = false /\ is_websocket line = true.
Proof.
  unfold websocket_line.
  destruct (is_section line), (is_method line), (is_throughput line),
    (is_websocket line); simpl; intros H; try discriminate; auto.
Qed.

(** What a successful step has done. *)
Lemma step_inv st line st' :
  step st line = Ok st' ->
  (section_marker line = true /\
   exists b, st' = mkscan (results st) (configs st) (current_method st) (Some b))
  \/ (method_marker line = true /\
      exists a, st' = mkscan (results st) (configs st) (Some (strip a))
                             (current_config st))
  \/ (throughput_line line = true /\
      exists v, extract "Requests/second:" line = Ok v /\
        ((truthy (current_method st) = false /\ st' = st)
         \/ exists m r c,
              current_method st = Some m /\ truthy (Some m) = true /\
              append_at (results st) m v = Ok r /\
              append_at (configs st) m (current_config st) = Ok c /\
              st' = mkscan r c (current_method st) (current_config st)))
  \/ (websocket_line line = true /\
      exists v r c, extract "messages/second:" line = Ok v /\
        append_at (results st) "WebSocket" v = Ok r /\
        append_at (configs st) "WebSocket" (current_config st) = Ok c /\
        st' = mkscan r c (current_method st) (current_config st))
  \/ (section_marker line = false /\ method_marker line = false /\
      throughput_line line = false /\ websocket_line line = false /\ st' = st).
Proof.
  unfold section_marker, method_marker, throughput_line, websocket_line.
  intros H. destruct (is_section line) eqn:E1.
  { left. split; [reflexivity|].
    destruct (step_section st line E1) as [b Hb]. rewrite Hb in H.
    injection H as <-. eauto. }
  destruct (is_method line) eqn:E2.
  { right; left. split; [reflexivity|].
    destruct (step_method st line E1 E2) as [a [_ Ha]]. rewrite Ha in H.
    injection H as <-. eauto. }
  destruct (is_throughput line) eqn:E3.
  { right; right; left. split; [reflexivity|].
    rewrite (step_throughput st line E1 E2 E3) in H.
    destruct (extract "Requests/second:" line) as [v|]; simpl in H; [|discriminate].
    exists v. split; [reflexivity|].
    destruct (current_method st) as [m|] eqn:Em.
    - destruct (truthy (Some m)) eqn:Et.
      + right.
        destruct (append_at (results st) m v) as [r|] eqn:Er;
          simpl in H; [|discriminate].
        destruct (append_at (configs st) m (current_config st)) as [c|] eqn:Ec;
          simpl in H; [|discriminate].
        injection H as <-. exists m, r, c. repeat split; assumption.
      + left. injection H as <-. auto.
    - left. injection H as <-. auto. }
  destruct (is_websocket line) eqn:E4.
  { right; right; right; left. split; [reflexivity|].
    rewrite (step_websocket st line E1 E2 E3 E4) in H.
    destruct (extract "messages/second:" line) as [v|]; simpl in H; [|discriminate].
    destruct (append_at (results st) "WebSocket" v) as [r|] eqn:Er;
      simpl in H; [|discriminate].
    destruct (append_at (configs st) "WebSocket" (current_config st)) as [c|] eqn:Ec;
      simpl in H; [|discriminate].
    injection H as <-. exists v, r, c. repeat split; assumption. }
  right; right; right; right.
  rewrite (step_other st line E1 E2 E3 E4) in H. injection H as <-. repeat split.
Qed.

(** Only a method marker changes the current method, and only a section
    marker changes the current configuration label. *)
Lemma step_current_method st line st' :
  step st line = Ok st' -> method_marker line = false ->
  current_method st' = current_method st.
Proof.
  intros H Hm.
  destruct (step_inv _ _ _ H)
    as [[_ [b ->]]|[[Hm' _]|[[_ [v [_ [[_ ->]|(m & r & c & _ & _ & _ & _ & ->)]]]]
       |[[_ (v & r & c & _ & _ & _ & ->)]|(_ & _ & _ & _ & ->)]]]];
    try reflexivity.
  congruence.
Qed.

Lemma step_current_config st line st' :
  step st line = Ok st' -> section_marker line = false ->
  current_config st' = current_config st.
Proof.
  intros H Hm.
  destruct (step_inv _ _ _ H)
    as [[Hm' _]|[[_ [a ->]]|[[_ [v [_ [[_ ->]|(m & r & c & _ & _ & _ & _ & ->)]]]]
       |[[_ (v & r & c & _ & _ & _ & ->)]|(_ & _ & _ & _ & ->)]]]];
    try reflexivity.
  congruence.
Qed.

Lemma scan_current_method pre : forall st st',
  Forall (fun l => method_marker l = false) pre ->
  scan_lines st pre = Ok st' -> current_method st' = current_method st.
Proof.
  induction pre as [|l pre IH]; simpl; intros st st' F H.
  - injection H as <-. reflexivity.
  - inversion F as [|? ? Hl F']; subst.
    destruct (step st l) as [st1|] eqn:E; simpl in H; [|discriminate].
    rewrite (IH _ _ F' H). eapply step_current_method; eauto.
Qed.

Lemma scan_current_config pre : forall st st',
  Forall (fun l => section_marker l = false) pre ->
  scan_lines st pre = Ok st' -> current_config st' = current_config st.
Proof.
  induction pre as [|l pre IH]; simpl; intros st st' F H.
  - injection H as <-. reflexivity.
  - inversion F as [|? ? Hl F']; subst.
    destruct (step st l) as [st1|] eqn:E; simpl in H; [|discriminate].
    rewrite (IH _ _ F' H). eapply step_current_config; eauto.
Qed.

(** ** C1: WebSocket lines *)

(** C1, amended.  A line that contains ["WebSocket messages/second:"] and
    none of the patterns tested before it, and from which a number is
    extracted, appends that number to the WebSocket samples and the current
    configuration label to the WebSocket labels, whatever the current method
    is; nothing else changes. *)
Theorem websocket_line_appends pre line st v :
  scan_lines scan0 pre = Ok st ->
  websocket_line line = true ->
  extract "messages/second:" line = Ok v ->
  exists st' ws cs,
    step st line = Ok st' /\
    lookup (results st) "WebSocket" = Ok ws /\
    lookup (configs st) "WebSocket" = Ok cs /\
    lookup (results st') "WebSocket" = Ok (ws ++ [v])%list /\
    lookup (configs st') "WebSocket" = Ok (cs ++ [current_config st])%list /\
    (forall k, k <> "WebSocket" ->
               lookup (results st') k = lookup (results st) k /\
               lookup (configs st') k = lookup (configs st) k) /\
    current_method st' = current_method st /\
    current_config st' = current_config st.
Proof.
  intros Hpre Hw Hv.
  destruct (websocket_line_inv _ Hw) as (H1 & H2 & H3 & H4).
  destruct (scan_lines_has_keys _ _ _ has_keys_scan0 Hpre) as [Kr Kc].
  rewrite (step_websocket st line H1 H2 H3 H4), Hv. simpl.
  destruct (append_at_in_keys (results st) "WebSocket" v) as [r Er].
  { rewrite Kr. simpl. auto. }
  destruct (append_at_in_keys (configs st) "WebSocket" (current_config st)) as [c Ec].
  { rewrite Kc. simpl. auto. }
  rewrite Er, Ec. simpl.
  destruct (lookup_append_at _ _ _ _ Er) as [ws [Hws Hws']].
  destruct (lookup_append_at _ _ _ _ Ec) as [cs [Hcs Hcs']].
  eexists _, ws, cs. split; [reflexivity|]. simpl.
  repeat split; auto.
  - eapply lookup_append_at_other; eauto.
  - eapply lookup_append_at_other; eauto.
Qed.

Lemma websocket_line_appends_witness :
  exists st' ws cs,
    step scan0 "WebSocket messages/second: 5000.00" = Ok st' /\
    lookup (results scan0) "WebSocket" = Ok ws /\
    lookup (configs scan0) "WebSocket" = Ok cs /\
    lookup (results st') "WebSocket" = Ok (ws ++ [mkfloat 5000 ""])%list /\
    lookup (configs st') "WebSocket" = Ok (cs ++ [current_config scan0])%list /\
    (forall k, k <> "WebSocket" ->
               lookup (results st') k = lookup (results scan0) k /\
               lookup (configs st') k = lookup (configs scan0) k) /\
    current_method st' = current_method scan0 /\
    current_config st' = current_config scan0.
Proof.
  apply (websocket_line_appends [] "WebSocket messages/second: 5000.00" scan0
           (mkfloat 5000 "")); reflexivity.
Defined.

(** C1 as stated fails: this line contains ["messages/second:"] and none of
    the patterns tested before it, and carries the number 50, yet the scan
    ignores it, because the branch tests for ["WebSocket messages/second:"]. *)
Lemma messages_line_ignored :
  let line := "Total messages/second: 50" ++ NL in
  contains "messages/second:" line = true /\
  is_section line = false /\ is_method line = false /\
  is_throughput line = false /\
  extract "messages/second:" line = Ok (mkfloat 50 "") /\
  step scan0 line = Ok scan0 /\
  lookup (results scan0) "WebSocket" = Ok [].
Proof. repeat split. Qed.

(** ** C3: throughput lines before any method marker *)

(** C3.  A ["Requests/second:"] line that carries a number and is read
    before any method marker leaves the whole state as it was, so no sample
    and no label is recorded; the scan goes on as if the line were absent. *)
Theorem throughput_without_method_discarded pre line post v :
  Forall (fun l => method_marker l = false) pre ->
  throughput_line line = true ->
  extract "Requests/second:" line = Ok v ->
  (forall st, scan_lines scan0 pre = Ok st ->
              current_method st = None /\ step st line = Ok st) /\
  parse_lines (pre ++ line :: post) = parse_lines (pre ++ post).
Proof.
  intros F Ht Hv.
  destruct (throughput_line_inv _ Ht) as (H1 & H2 & H3).
  assert (S : forall st, scan_lines scan0 pre = Ok st ->
                         current_method st = None /\ step st line = Ok st).
  { intros st Hst. pose proof (scan_current_method _ _ _ F Hst) as Hm.
    simpl in Hm. split; [exact Hm|].
    rewrite (step_throughput st line H1 H2 H3), Hv, Hm. reflexivity. }
  split; [exact S|].
  unfold parse_lines. rewrite !scan_lines_app.
  destruct (scan_lines scan0 pre) as [st|] eqn:E; [|reflexivity].
  simpl. destruct (S st eq_refl) as [_ ->]. reflexivity.
Qed.

Lemma throughput_without_method_discarded_witness :
  (forall st, scan_lines scan0 ["=== Basic Benchmark ==="] = Ok st ->
              current_method st = None /\
              step st "Requests/second: 150.5" = Ok st) /\
  parse_lines (["=== Basic Benchmark ==="]
               ++ "Requests/second: 150.5" :: ["Method: GET"; "Requests/second: 7"])
  = parse_lines (["=== Basic Benchmark ==="]
                 ++ ["Method: GET"; "Requests/second: 7"]).
Proof.
  apply (throughput_without_method_discarded
           ["=== Basic Benchmark ==="] "Requests/second: 150.5"
           ["Method: GET"; "Requests/second: 7"] (mkfloat 150 "5")).
  - repeat constructor.
  - reflexivity.
  - reflexivity.
Defined.

(** ** C7: method markers outside the three methods *)

Lemma truthy_nonempty m : m <> "" -> truthy (Some m) = true.
Proof. destruct m; [congruence|reflexivity]. Qed.




(** ** C4: samples and labels stay aligned *)

Lemma of_method_app m a b :
  of_method m (a ++ b)%list = (of_method m a ++ of_method m b)%list.
Proof. unfold of_method. rewrite filter_app, map_app. reflexivity. Qed.

Lemma of_method_single m m0 v l :
  of_method m [(m0, v, l)] = if String.eqb m0 m then [(v, l)] else [].
Proof.
  unfold of_method. cbn [filter fst snd].
  destruct (String.eqb m0 m); reflexivity.
Qed.

Lemma websocket_not_throughput line :
  websocket_line line = true -> throughput_line line = false.
Proof.
  intros H. destruct (websocket_line_inv _ H) as (_ & _ & H3 & _).
  unfold throughput_line. rewrite H3. apply andb_false_r.
Qed.

Lemma sample_of_marker st line :
  throughput_line line = false -> websocket_line line = false ->
  sample_of st line = [].
Proof. intros H1 H2. unfold sample_of. rewrite H1, H2. reflexivity. Qed.

Lemma section_not_sample line :
  section_marker line = true ->
  throughput_line line = false /\ websocket_line line = false.
Proof.
  unfold section_marker, throughput_line, websocket_line. intros ->. auto.
Qed.

Lemma method_not_sample line :
  method_marker line = true ->
  throughput_line line = false /\ websocket_line line = false.
Proof.
  unfold method_marker, throughput_line, websocket_line. intros H.
  apply andb_prop in H. destruct H as [H1 H2]. rewrite H2.
  destruct (is_section line); auto.
Qed.

(** One step appends to the lists of [m] exactly the sample it contributes
    to [m], value and label side by side. *)
Lemma step_encountered st line st' m r0 c0 :
  step st line = Ok st' ->
  lookup (results st) m = Ok r0 -> lookup (configs st) m = Ok c0 ->
  lookup (results st') m = Ok (r0 ++ map fst (of_method m (sample_of st line)))%list /\
  lookup (configs st') m = Ok (c0 ++ map snd (of_method m (sample_of st line)))%list.
Proof.
  intros H Hr Hc.
  destruct (step_inv _ _ _ H)
    as [[Hs [b ->]]|[[Hm [a ->]]|[[Ht [v [Hv [[Hf ->]|(m0 & r & c & Hm0 & Ht0 & Er & Ec & ->)]]]]
       |[[Hw (v & r & c & Hv & Er & Ec & ->)]|(_ & _ & Ht & Hw & ->)]]]].
  - destruct (section_not_sample _ Hs) as [H1 H2].
    rewrite (sample_of_marker _ _ H1 H2). simpl. rewrite !List.app_nil_r. auto.
  - destruct (method_not_sample _ Hm) as [H1 H2].
    rewrite (sample_of_marker _ _ H1 H2). simpl. rewrite !List.app_nil_r. auto.
  - unfold sample_of. rewrite Ht, Hv.
    destruct (current_method st) as [m0|]; [rewrite Hf|];
      simpl; rewrite !List.app_nil_r; auto.
  - unfold sample_of. rewrite Ht, Hv, Hm0, Ht0, of_method_single.
    destruct (String.eqb m0 m) eqn:E; cbn [map fst snd].
    + apply String.eqb_eq in E. subst m0.
      destruct (lookup_append_at _ _ _ _ Er) as [r1 [Hr1 Hr2]].
      destruct (lookup_append_at _ _ _ _ Ec) as [c1 [Hc1 Hc2]].
      rewrite Hr in Hr1. rewrite Hc in Hc1.
      injection Hr1 as <-. injection Hc1 as <-. auto.
    + apply String.eqb_neq in E. rewrite !List.app_nil_r.
      rewrite (lookup_append_at_other _ _ _ _ _ Er) by congruence.
      rewrite (lookup_append_at_other _ _ _ _ _ Ec) by congruence. auto.
  - unfold sample_of.
    rewrite (websocket_not_throughput _ Hw), Hw, Hv, of_method_single.
    destruct (String.eqb "WebSocket" m) eqn:E; cbn [map fst snd].
    + apply String.eqb_eq in E. subst m.
      destruct (lookup_append_at _ _ _ _ Er) as [r1 [Hr1 Hr2]].
      destruct (lookup_append_at _ _ _ _ Ec) as [c1 [Hc1 Hc2]].
      rewrite Hr in Hr1. rewrite Hc in Hc1.
      injection Hr1 as <-. injection Hc1 as <-. auto.
    + apply String.eqb_neq in E. rewrite !List.app_nil_r.
      rewrite (lookup_append_at_other _ _ _ _ _ Er) by congruence.
      rewrite (lookup_append_at_other _ _ _ _ _ Ec) by congruence. auto.
  - rewrite (sample_of_marker _ _ Ht Hw). simpl. rewrite !List.app_nil_r. auto.
Qed.

Lemma scan_encountered lines : forall st st' m r0 c0,
  scan_lines st lines = Ok st' ->
  lookup (results st) m = Ok r0 -> lookup (configs st) m = Ok c0 ->
  lookup (results st') m
  = Ok (r0 ++ map fst (of_method m (encountered_from st lines)))%list /\
  lookup (configs st') m
  = Ok (c0 ++ map snd (of_method m (encountered_from st lines)))%list.
Proof.
  induction lines as [|line rest IH]; simpl; intros st st' m r0 c0 H Hr Hc.
  - injection H as <-. simpl. rewrite !List.app_nil_r. auto.
  - destruct (step st line) as [st1|] eqn:E; simpl in H; [|discriminate].
    destruct (step_encountered _ _ _ m r0 c0 E Hr Hc) as [Hr1 Hc1].
    destruct (IH _ _ m _ _ H Hr1 Hc1) as [Hr2 Hc2].
    rewrite Hr2, Hc2, of_method_app, !map_app, !List.app_assoc. auto.
Qed.

(** The aggregate of a completed parse, read off the encountered Samples. *)
Lemma parse_lines_encountered lines rs cs m :
  parse_lines lines = Ok (rs, cs) -> In m methods3 ->
  lookup rs m = Ok (map fst (of_method m (encountered lines))) /\
  lookup cs m = Ok (map snd (of_method m (encountered lines))).
Proof.
  unfold parse_lines. intros H Hm.
  destruct (scan_lines scan0 lines) as [st|] eqn:E; simpl in H; [|discriminate].
  injection H as <- <-.
  assert (H0 : lookup (results scan0) m = Ok [] /\ lookup (configs scan0) m = Ok []).
  { simpl in Hm. destruct Hm as [<-|[<-|[<-|[]]]]; split; reflexivity. }
  destruct H0 as [Hr Hc].
  exact (scan_encountered _ _ _ _ _ _ E Hr Hc).
Qed.

(** C4.  After a completed parse each of GET, POST and WebSocket has a
    sample list and a label list of the same length, and the i-th Sample
    encountered for the method has its value at index i of the first and its
    label at index i of the second. *)
Theorem sequences_aligned lines rs cs m :
  parse_lines lines = Ok (rs, cs) -> In m methods3 ->
  exists r c,
    lookup rs m = Ok r /\ lookup cs m = Ok c /\
    List.length r = List.length c /\
    List.length r = List.length (of_method m (encountered lines)) /\
    forall i v l,
      nth_error (of_method m (encountered lines)) i = Some (v, l) <->
      nth_error r i = Some v /\ nth_error c i = Some l.
Proof.
  intros H Hm. destruct (parse_lines_encountered _ _ _ _ H Hm) as [Hr Hc].
  eexists _, _. split; [exact Hr|]. split; [exact Hc|].
  rewrite !length_map. split; [reflexivity|]. split; [reflexivity|].
  intros i v l. split.
  - intros Hi. split.
    + apply (map_nth_error fst) in Hi. exact Hi.
    + apply (map_nth_error snd) in Hi. exact Hi.
  - intros [H1 H2]. rewrite nth_error_map in H1, H2.
    destruct (nth_error (of_method m (encountered lines)) i) as [[v' l']|];
      simpl in *; congruence.
Qed.

Lemma sequences_aligned_witness :
  exists r c,
    lookup [("GET", [mkfloat 150 "5"]); ("POST", []); ("WebSocket", [])] "GET" = Ok r /\
    lookup [("GET", [Some "Basic"]); ("POST", []); ("WebSocket", [])] "GET" = Ok c /\
    List.length r = List.length c /\
    List.length r =
      List.length (of_method "GET"
        (encountered ["=== Basic Benchmark ==="; "Method: GET"; "Requests/second: 150.5"])) /\
    forall i v l,
      nth_error (of_method "GET"
        (encountered ["=== Basic Benchmark ==="; "Method: GET"; "Requests/second: 150.5"])) i
      = Some (v, l) <->
      nth_error r i = Some v /\ nth_error c i = Some l.
Proof.
  apply (sequences_aligned
           ["=== Basic Benchmark ==="; "Method: GET"; "Requests/second: 150.5"]).
  - reflexivity.
  - simpl. auto.
Defined.

(** ** The run as a whole *)

Lemma main_parse_raise argv0 path d e :
  parse_benchmark_results d path = Raise e ->
  main [argv0; path] d = mkoutcome [] "" (Uncaught e).
Proof.
  intros H. unfold main, run, bind_io, lift. rewrite H. reflexivity.
Qed.

Lemma main_http_raise argv0 path d rs cs e :
  parse_benchmark_results d path = Ok (rs, cs) ->
  http_means rs cs ["GET"; "POST"] = Raise e ->
  main [argv0; path] d = mkoutcome [] "" (Uncaught e).
Proof.
  intros H1 H2.
  unfold main, run, bind_io, lift, plot_http_comparison, bind_io, lift.
  rewrite H1. cbn [fst snd]. rewrite H2. reflexivity.
Qed.

Lemma scan_lines_raise pre line post :
  (forall st, exists e, step st line = Raise e) ->
  forall st, exists e, scan_lines st (pre ++ line :: post) = Raise e.
Proof.
  intros Hl st. rewrite scan_lines_app.
  destruct (scan_lines st pre) as [st1|e1]; simpl; [|eauto].
  destruct (Hl st1) as [e ->]. simpl. eauto.
Qed.

(** ** C2: a trigger line without a number *)

(** C2, amended.  If some line of the report reaches the
    ["Requests/second:"] branch or the ["WebSocket messages/second:"] branch
    (no pattern tested earlier in the chain matches it) and no number can be
    extracted from it, the run ends with an uncaught exception and has
    written no file. *)
Theorem numberless_trigger_line_is_fatal argv0 path d text pre line post e :
  d path = Some text ->
  readlines text = (pre ++ line :: post)%list ->
  (throughput_line line = true /\ extract "Requests/second:" line = Raise e) \/
  (websocket_line line = true /\ extract "messages/second:" line = Raise e) ->
  exists e', main [argv0; path] d = mkoutcome [] "" (Uncaught e').
Proof.
  intros Hd Hl Hline.
  assert (F : forall st, exists e0, step st line = Raise e0).
  { intros st. destruct Hline as [[Ht He]|[Hw He]].
    - destruct (throughput_line_inv _ Ht) as (H1 & H2 & H3).
      rewrite (step_throughput st line H1 H2 H3), He. simpl. eauto.
    - destruct (websocket_line_inv _ Hw) as (H1 & H2 & H3 & H4).
      rewrite (step_websocket st line H1 H2 H3 H4), He. simpl. eauto. }
  destruct (scan_lines_raise pre line post F scan0) as [e' He'].
  exists e'. apply main_parse_raise.
  unfold parse_benchmark_results, parse_lines. rewrite Hd, Hl, He'. reflexivity.
Qed.

Lemma numberless_trigger_line_is_fatal_witness :
  exists e',
    main ["plot_benchmarks.py"; "out/report.txt"]
         (one_file "out/report.txt"
            ("Method: GET" ++ NL ++ "Requests/second: N/A" ++ NL ++ "Method: POST" ++ NL))
    = mkoutcome [] "" (Uncaught e').
Proof.
  apply (numberless_trigger_line_is_fatal
           "plot_benchmarks.py" "out/report.txt" _
           ("Method: GET" ++ NL ++ "Requests/second: N/A" ++ NL ++ "Method: POST" ++ NL)
           ["Method: GET" ++ NL] ("Requests/second: N/A" ++ NL) ["Method: POST" ++ NL]
           AttributeError).
  - reflexivity.
  - reflexivity.
  - left. split; reflexivity.
Defined.

(** C2 as stated fails: each of the two lines of this report contains a
    trigger substring (["Requests/second:"], ["messages/second:"]) and no
    number at all, yet the run ends normally and writes its files.  The
    first line is taken by the method-marker branch, which is tested first;
    the second lacks the ["WebSocket "] that the last branch tests for. *)
Lemma numberless_lines_accepted :
  let l1 := "Method: GET (Requests/second: N/A)" ++ NL in
  let l2 := "messages/second: N/A" ++ NL in
  let out := main ["plot_benchmarks.py"; "out/report.txt"]
                  (one_file "out/report.txt" (l1 ++ l2)) in
  readlines (l1 ++ l2) = [l1; l2] /\
  contains "Requests/second:" l1 = true /\
  extract "Requests/second:" l1 = Raise AttributeError /\
  first_decimal l1 = None /\
  contains "messages/second:" l2 = true /\
  extract "messages/second:" l2 = Raise AttributeError /\
  first_decimal l2 = None /\
  exit_status out = Exit 0 /\
  map fst (written out) =
    ["out/http_comparison.png"; "out/performance_timeline.png";
     "out/benchmark_data.csv"].
Proof. repeat split. Qed.

(** ** C6: the output directory *)

(** C6 fails on a bare file name: the directory part is empty, and the
    paths built from it, ['' + '/' + name], are in the root directory, not in
    the current one. *)
Lemma bare_filename_writes_to_root :
  let text := "=== Basic Benchmark ===" ++ NL ++ "Method: GET" ++ NL
              ++ "Requests/second: 150.5" ++ NL
              ++ "WebSocket messages/second: 5000" ++ NL in
  let out := main ["plot_benchmarks.py"; "report.txt"] (one_file "report.txt" text) in
  contains "/" "report.txt" = false /\
  output_dir_of "report.txt" = "" /\
  exit_status out = Exit 0 /\
  map fst (written out) =
    ["/http_comparison.png"; "/websocket_performance.png";
     "/performance_timeline.png"; "/benchmark_data.csv"].
Proof. repeat split. Qed.

(** Every file of a run is in the output directory: its path is the
    directory part of the report path, a slash and one of the four names. *)

Lemma put_paths fs path c p :
  In p (map fst (put fs path c)) -> p = path \/ In p (map fst fs).
Proof.
  induction fs as [|[q c'] fs IH]; simpl.
  - intros [H|[]]. auto.
  - destruct (String.eqb q path) eqn:E; simpl.
    + auto.
    + intros [H|H]; [auto|]. destruct (IH H); auto.
Qed.

Lemma extend_paths fs path s : map fst (extend fs path s) = map fst fs.
Proof.
  induction fs as [|[q c] fs IH]; simpl; [reflexivity|].
  destruct (String.eqb q path); simpl; [reflexivity|]. rewrite IH. reflexivity.
Qed.

Lemma within_lift {A} S (r : result A) : writes_within S (lift r).
Proof. intros fs fs' r' p [= <- <-]. auto. Qed.

Lemma within_ret {A} S (a : A) : writes_within S (ret a).
Proof. intros fs fs' r' p [= <- <-]. auto. Qed.

Lemma within_savefig S path fig : In path S -> writes_within S (savefig path fig).
Proof.
  intros Hin fs fs' r p [= <- <-] Hp.
  destruct (put_paths _ _ _ _ Hp) as [->|H]; auto.
Qed.

Lemma within_open_w S path : In path S -> writes_within S (open_w path).
Proof.
  intros Hin fs fs' r p [= <- <-] Hp.
  destruct (put_paths _ _ _ _ Hp) as [->|H]; auto.
Qed.

Lemma within_write S path s : writes_within S (write path s).
Proof.
  intros fs fs' r p [= <- <-] Hp. rewrite extend_paths in Hp. auto.
Qed.

Lemma within_bind {A B} S (m : io A) (k : A -> io B) :
  writes_within S m -> (forall a, writes_within S (k a)) ->
  writes_within S (bind_io m k).
Proof.
  intros Hm Hk fs fs' r p. unfold bind_io.
  destruct (m fs) as [fs1 [a|e]] eqn:E.
  - intros H Hp. destruct (Hk a _ _ _ _ H Hp) as [H1|H1]; [auto|].
    exact (Hm _ _ _ _ E H1).
  - intros [= <- <-] Hp. exact (Hm _ _ _ _ E Hp).
Qed.

Lemma within_for_each {A} S (l : list A) (body : A -> io unit) :
  (forall x, writes_within S (body x)) -> writes_within S (for_each l body).
Proof.
  intros Hb. induction l as [|x l IH]; cbn [for_each].
  - apply within_ret.
  - apply within_bind; [apply Hb|intros _; exact IH].
Qed.

Lemma run_within d report_file :
  writes_within (map (fun n => output_dir_of report_file ++ n) output_names)
                (run d report_file).
Proof.
  unfold run. apply within_bind; [apply within_lift|]. intros [rs cs].
  apply within_bind.
  { unfold plot_http_comparison. apply within_bind; [apply within_lift|].
    intros q. apply within_savefig. simpl. auto. }
  intros _. apply within_bind.
  { unfold plot_websocket_performance. apply within_bind; [apply within_lift|].
    intros [|x l]; [apply within_ret|]. apply within_savefig. simpl. auto. }
  intros _. apply within_bind.
  { unfold plot_timeline. apply within_bind; [apply within_lift|].
    intros bars. apply within_savefig. simpl. auto. }
  intros _. unfold write_csv.
  apply within_bind; [apply within_open_w; simpl; auto 6|]. intros _.
  apply within_bind; [apply within_write|]. intros _.
  apply within_for_each. intros m.
  apply within_bind; [apply within_lift|]. intros r.
  apply within_bind; [apply within_lift|]. intros c.
  apply within_for_each. intros [rps cfg]. apply within_write.
Qed.

Lemma main_writes_in_output_dir argv0 report_file d p c :
  In (p, c) (written (main [argv0; report_file] d)) ->
  In p (map (fun n => output_dir_of report_file ++ n) output_names).
Proof.
  intros H. apply (in_map fst) in H. cbn [fst] in H.
  unfold main in H.
  destruct (run d report_file []) as [fs [u|e]] eqn:E; cbn [written] in H;
    destruct (run_within d report_file _ _ _ p E H) as [H1|[]]; exact H1.
Qed.

Lemma prefix_char a c s : prefix (String a "") (String c s) = Ascii.eqb c a.
Proof.
  cbn [prefix]. destruct (ascii_dec a c) as [<-|N].
  - rewrite Ascii.eqb_refl. destruct s; reflexivity.
  - symmetry. apply Ascii.eqb_neq. congruence.
Qed.

Lemma split_slash_last name : forall cur,
  contains "/" name = false -> split_from "/" name 0 cur = [cur ++ name].
Proof.
  induction name as [|c name IH]; intros cur H.
  - simpl. rewrite sapp_nil_r. reflexivity.
  - cbn [contains] in H. apply orb_false_elim in H. destruct H as [H1 H2].
    cbn [split_from]. rewrite H1, (IH _ H2), sapp_assoc. reflexivity.
Qed.

Lemma split_slash_dir dir name : forall cur,
  contains "/" name = false ->
  split_from "/" (dir ++ "/" ++ name) 0 cur
  = (split_from "/" dir 0 cur ++ [name])%list.
Proof.
  induction dir as [|c dir IH]; intros cur H.
  - cbn [append split_from]. rewrite prefix_char. cbn [Ascii.eqb Bool.eqb].
    cbn [String.length Nat.sub]. rewrite (split_slash_last name "" H). reflexivity.
  - cbn [append] in IH. cbn [append split_from]. rewrite !prefix_char.
    destruct (Ascii.eqb c "/").
    + cbn [String.length Nat.sub]. rewrite (IH "" H). reflexivity.
    + apply IH. exact H.
Qed.

Lemma join_split_slash s : forall cur,
  join "/" (split_from "/" s 0 cur) = cur ++ s.
Proof.
  induction s as [|c s IH]; intros cur.
  - simpl. rewrite sapp_nil_r. reflexivity.
  - cbn [split_from]. rewrite prefix_char. destruct (Ascii.eqb c "/") eqn:E.
    + apply Ascii.eqb_eq in E. subst c. cbn [String.length Nat.sub].
      specialize (IH ""). pose proof (split_from_length "/" s 0 "") as L.
      destruct (split_from "/" s 0 "") as [|x l]; [simpl in L; lia|].
      cbn [join]. cbn [join] in IH. rewrite IH. reflexivity.
    + rewrite IH, sapp_assoc. reflexivity.
Qed.

(** With a directory part, the output directory is that directory. *)
Lemma output_dir_of_path dir name :
  contains "/" name = false -> output_dir_of (dir ++ "/" ++ name) = dir.
Proof.
  intros H. unfold output_dir_of, but_last, split.
  rewrite (split_slash_dir dir name "" H), removelast_last.
  apply (join_split_slash dir "").
Qed.

(** Without one, it is empty, and every file of the run is in the root
    directory. *)
Lemma output_dir_of_bare name :
  contains "/" name = false -> output_dir_of name = "".
Proof.
  intros H. unfold output_dir_of, but_last, split.
  rewrite (split_slash_last name "" H). reflexivity.
Qed.

Lemma bare_filename_paths argv0 name d p c :
  contains "/" name = false ->
  In (p, c) (written (main [argv0; name] d)) -> In p output_names.
Proof.
  intros H Hin. apply main_writes_in_output_dir in Hin.
  rewrite (output_dir_of_bare name H) in Hin.
  rewrite map_id in Hin. exact Hin.
Qed.

(** ** C10: an undefined label reaches the HTTP comparison *)

Lemma select_none sub pairs v :
  In (v, None) pairs -> select sub pairs = Raise TypeError.
Proof.
  induction pairs as [|[rps cfg] rest IH]; simpl; [tauto|].
  intros [H|H].
  - injection H as -> ->. reflexivity.
  - destruct cfg as [c|]; simpl; [|reflexivity].
    rewrite (IH H). reflexivity.
Qed.

Lemma select_raise sub pairs e :
  select sub pairs = Raise e -> e = TypeError.
Proof.
  induction pairs as [|[rps cfg] rest IH]; simpl; [discriminate|].
  destruct cfg as [c|]; simpl; [|congruence].
  destruct (select sub rest); simpl; [discriminate|].
  intros [= <-]. auto.
Qed.

Lemma http_means_none rs cs rg cg rp cp :
  lookup rs "GET" = Ok rg -> lookup cs "GET" = Ok cg ->
  lookup rs "POST" = Ok rp -> lookup cs "POST" = Ok cp ->
  (exists v, In (v, None) (zip rg cg)) \/ (exists v, In (v, None) (zip rp cp)) ->
  http_means rs cs ["GET"; "POST"] = Raise TypeError.
Proof.
  intros Hrg Hcg Hrp Hcp H. cbn [http_means].
  rewrite Hrg, Hcg, Hrp, Hcp. cbn [bind].
  destruct H as [[v Hv]|[v Hv]].
  - rewrite (select_none "Basic" _ v Hv). reflexivity.
  - rewrite (select_none "Basic" (zip rp cp) v Hv). cbn [bind].
    destruct (select "Basic" (zip rg cg)) as [b|e] eqn:Eb; cbn [bind];
      [|rewrite (select_raise _ _ _ Eb); reflexivity].
    destruct (select "High Concurrency" (zip rg cg)) as [h|e] eqn:Eh; cbn [bind];
      [reflexivity|rewrite (select_raise _ _ _ Eh); reflexivity].
Qed.

Lemma encountered_from_app pre : forall st st' post,
  scan_lines st pre = Ok st' ->
  encountered_from st (pre ++ post)
  = (encountered_from st pre ++ encountered_from st' post)%list.
Proof.
  induction pre as [|l pre IH]; simpl; intros st st' post H.
  - injection H as <-. reflexivity.
  - destruct (step st l) as [st1|] eqn:E; simpl in H; [|discriminate].
    rewrite (IH _ _ post H), List.app_assoc. reflexivity.
Qed.

Lemma zip_fst_snd {A B} (l : list (A * B)) : zip (map fst l) (map snd l) = l.
Proof.
  unfold zip. induction l as [|[a b] l IH]; simpl; [reflexivity|].
  rewrite IH. reflexivity.
Qed.

(** C10.  If a ["Requests/second:"] line carrying a number is read while GET
    or POST is the current method and no section marker has been read, and
    the parse of the whole report completes, then the parse has stored the
    sample with the label [None], and the run ends in [plot_http_comparison]
    with a [TypeError], having written no file. *)
Theorem undefined_label_aborts_run argv0 path d text pre line post st m v rs cs :
  d path = Some text ->
  readlines text = (pre ++ line :: post)%list ->
  Forall (fun l => section_marker l = false) pre ->
  scan_lines scan0 pre = Ok st ->
  current_method st = Some m -> m = "GET" \/ m = "POST" ->
  throughput_line line = true ->
  extract "Requests/second:" line = Ok v ->
  parse_lines (pre ++ line :: post) = Ok (rs, cs) ->
  (exists r c, lookup rs m = Ok r /\ lookup cs m = Ok c /\ In (v, None) (zip r c)) /\
  main [argv0; path] d = mkoutcome [] "" (Uncaught TypeError).
Proof.
  intros Hd Hl Hsec Hpre Hm Hgp Ht Hv Hparse.
  assert (Hcfg : current_config st = None).
  { exact (scan_current_config _ _ _ Hsec Hpre). }
  assert (Hin : In (v, None) (of_method m (encountered (pre ++ line :: post)))).
  { unfold encountered. rewrite (encountered_from_app _ _ _ _ Hpre).
    rewrite of_method_app. apply in_or_app. right.
    simpl. destruct (step st line) as [st1|e] eqn:Es.
    - rewrite of_method_app. apply in_or_app. left.
      unfold sample_of. rewrite Ht, Hv, Hm, Hcfg.
      rewrite truthy_nonempty by (destruct Hgp; subst; discriminate).
      rewrite of_method_single, String.eqb_refl. simpl. auto.
    - unfold parse_lines in Hparse. rewrite scan_lines_app, Hpre in Hparse.
      simpl in Hparse. rewrite Es in Hparse. discriminate. }
  assert (K : forall k, In k methods3 ->
            lookup rs k = Ok (map fst (of_method k (encountered (pre ++ line :: post)))) /\
            lookup cs k = Ok (map snd (of_method k (encountered (pre ++ line :: post))))).
  { intros k Hk. exact (parse_lines_encountered _ _ _ _ Hparse Hk). }
  destruct (K "GET") as [Hrg Hcg]; [simpl; auto|].
  destruct (K "POST") as [Hrp Hcp]; [simpl; auto|].
  split.
  - destruct (K m) as [Hr Hc]; [destruct Hgp; subst; simpl; auto|].
    eexists _, _. split; [exact Hr|]. split; [exact Hc|].
    rewrite zip_fst_snd. exact Hin.
  - apply (main_http_raise _ _ _ rs cs).
    + unfold parse_benchmark_results. rewrite Hd, Hl. exact Hparse.
    + apply (http_means_none _ _ _ _ _ _ Hrg Hcg Hrp Hcp).
      rewrite !zip_fst_snd. destruct Hgp; subst m; [left|right]; eauto.
Qed.

Lemma undefined_label_aborts_run_witness :
  let text := "Method: POST" ++ NL ++ "Requests/second: 150.5" ++ NL
              ++ "=== Basic Benchmark ===" ++ NL in
  (exists r c,
     lookup [("GET", []); ("POST", [mkfloat 150 "5"]); ("WebSocket", [])] "POST" = Ok r /\
     lookup [("GET", []); ("POST", [@None string]); ("WebSocket", [])] "POST" = Ok c /\
     In (mkfloat 150 "5", None) (zip r c)) /\
  main ["plot_benchmarks.py"; "out/report.txt"] (one_file "out/report.txt" text)
  = mkoutcome [] "" (Uncaught TypeError).
Proof.
  apply (undefined_label_aborts_run
           "plot_benchmarks.py" "out/report.txt" _
           ("Method: POST" ++ NL ++ "Requests/second: 150.5" ++ NL
            ++ "=== Basic Benchmark ===" ++ NL)
           ["Method: POST" ++ NL] ("Requests/second: 150.5" ++ NL)
           ["=== Basic Benchmark ===" ++ NL]
           (mkscan (results scan0) (configs scan0) (Some "POST") None)
           "POST" (mkfloat 150 "5")).
  - reflexivity.
  - reflexivity.
  - repeat constructor.
  - reflexivity.
  - reflexivity.
  - right. reflexivity.
  - reflexivity.
  - reflexivity.
  - reflexivity.
Defined.

(** ** C8: the heights of the HTTP comparison *)









(** ** The regular expression *)

Lemma match_here_inv label s cap :
  match_here label s = Some cap ->
  exists ws rest,
    s = label ++ ws ++ cap ++ rest /\ all_of isspace ws = true /\
    cap <> "" /\ all_of isnumchar cap = true /\ take_numeric rest = "".
Proof.
  unfold match_here. intros H.
  destruct (strip_prefix label s) as [r|] eqn:E; [|discriminate].
  apply strip_prefix_inv in E.
  destruct (lstrip_decomp r) as (ws & Hws & Hsp).
  destruct (take_numeric_decomp (lstrip r)) as (rest & Hr & Hn & Hc).
  destruct (take_numeric (lstrip r)) as [|c n] eqn:En; [discriminate|].
  injection H as <-.
  exists ws, rest. rewrite <- Hr, <- Hws. repeat split; auto. discriminate.
Qed.

Lemma match_here_adjacent label ws d rest :
  all_of isspace ws = true -> d <> "" -> all_of isnumchar d = true ->
  take_numeric rest = "" ->
  match_here label (label ++ ws ++ d ++ rest) = Some d.
Proof.
  intros Hws Hne Hd Hr. unfold match_here.
  rewrite strip_prefix_app, (lstrip_spaces _ _ Hws), (lstrip_numeric _ _ Hne Hd),
    (take_numeric_app _ _ Hd Hr).
  destruct d; [congruence|reflexivity].
Qed.

Lemma re_search_unmatched label pre : forall tail,
  unmatched_before label pre tail = true ->
  re_search label (pre ++ tail) = re_search label tail.
Proof.
  induction pre as [|c pre IH]; intros tail H; [reflexivity|].
  cbn [unmatched_before] in H. cbn [append re_search] in *.
  destruct (match_here label (String c (pre ++ tail))); [discriminate|].
  apply IH. exact H.
Qed.

Lemma re_search_here label s cap :
  match_here label s = Some cap -> re_search label s = Some cap.
Proof. intros H. destruct s; simpl; rewrite H; reflexivity. Qed.

Lemma re_search_inv label line : forall cap,
  re_search label line = Some cap ->
  exists pre tail,
    line = pre ++ tail /\ unmatched_before label pre tail = true /\
    match_here label tail = Some cap.
Proof.
  induction line as [|c line IH]; intros cap H.
  - simpl in H. destruct (match_here label "") eqn:E; [|discriminate].
    exists "", "". rewrite E. auto.
  - cbn [re_search] in H.
    destruct (match_here label (String c line)) as [cap'|] eqn:E.
    + exists "", (String c line). rewrite E. auto.
    + destruct (IH _ H) as (pre & tail & H1 & H2 & H3).
      exists (String c pre), tail. cbn [append unmatched_before].
      rewrite <- H1, E. auto.
Qed.

(** ** Decimal literals *)

Lemma take_drop_digits s : s = take_digits s ++ drop_digits s.
Proof.
  induction s as [|c s IH]; [reflexivity|].
  simpl. destruct (isdigit c); simpl; [f_equal; exact IH|reflexivity].
Qed.

Lemma take_digits_digits s : all_of isdigit (take_digits s) = true.
Proof.
  induction s as [|c s IH]; [reflexivity|].
  simpl. destruct (isdigit c) eqn:E; [|reflexivity].
  rewrite all_of_cons, E, IH. reflexivity.
Qed.

Lemma cut_point_digits i : all_of isdigit i = true -> cut_point i = (i, None).
Proof.
  induction i as [|c i IH]; [reflexivity|].
  rewrite all_of_cons. intros H. apply andb_prop in H. destruct H as [H1 H2].
  simpl. rewrite (isdigit_not_point c H1), (IH H2). reflexivity.
Qed.

Lemma cut_point_app i f :
  all_of isdigit i = true -> cut_point (i ++ "." ++ f) = (i, Some f).
Proof.
  induction i as [|c i IH]; [reflexivity|].
  rewrite all_of_cons. intros H. apply andb_prop in H. destruct H as [H1 H2].
  specialize (IH H2). cbn [append cut_point] in *.
  rewrite (isdigit_not_point c H1), IH. reflexivity.
Qed.

Lemma is_decimal_inv d :
  is_decimal d = true ->
  (d <> "" /\ all_of isdigit d = true) \/
  (exists i f, d = i ++ "." ++ f /\ i <> "" /\ f <> "" /\
               all_of isdigit i = true /\ all_of isdigit f = true).
Proof.
  unfold is_decimal, decimal_here.
  pose proof (take_drop_digits d) as Hd.
  pose proof (take_digits_digits d) as Hi.
  destruct (take_digits d) as [|a i] eqn:Ei; [discriminate|].
  assert (Hne : String a i <> "") by discriminate.
  revert Hd Hi Hne. generalize (String a i). clear a i Ei. intros i Hd Hi Hne.
  destruct (drop_digits d) as [|c r] eqn:Er.
  - rewrite sapp_nil_r in Hd. subst i. intros _. left. auto.
  - destruct (Ascii.eqb c ".") eqn:Ec.
    + apply Ascii.eqb_eq in Ec. subst c.
      pose proof (take_drop_digits r) as Hr.
      pose proof (take_digits_digits r) as Hf.
      destruct (take_digits r) as [|b f] eqn:Ef.
      * intros H. apply String.eqb_eq in H. subst i.
        symmetry in Hd. apply sapp_eq_self in Hd. discriminate.
      * intros H. apply String.eqb_eq in H. right.
        exists i, (String b f). repeat split; auto. discriminate.
    + intros H. apply String.eqb_eq in H. subst i.
      symmetry in Hd. apply sapp_eq_self in Hd. discriminate.
Qed.

Lemma all_of_digit_numchar s : all_of isdigit s = true -> all_of isnumchar s = true.
Proof.
  induction s as [|c s IH]; [reflexivity|].
  rewrite !all_of_cons. intros H. apply andb_prop in H. destruct H as [H1 H2].
  rewrite (isdigit_numchar c H1), (IH H2). reflexivity.
Qed.

Lemma sapp_nonempty_l (a b : string) : a <> "" -> a ++ b <> "".
Proof. destruct a; [congruence|discriminate]. Qed.

Lemma is_decimal_numeric d :
  is_decimal d = true -> d <> "" /\ all_of isnumchar d = true.
Proof.
  intros H. destruct (is_decimal_inv d H)
    as [[Hne Hd]|(i & f & -> & Hi & Hf & Di & Df)].
  - split; [exact Hne|]. apply all_of_digit_numchar. exact Hd.
  - split; [apply sapp_nonempty_l; exact Hi|].
    rewrite !all_of_app, (all_of_digit_numchar _ Di), (all_of_digit_numchar _ Df).
    reflexivity.
Qed.

Lemma eqb_nonempty (s : string) : s <> "" -> String.eqb s "" = false.
Proof. intros H. apply String.eqb_neq. exact H. Qed.

(** [float] accepts every match of the decimal-number pattern. *)
Lemma float_decimal d : is_decimal d = true -> exists v, float d = Ok v.
Proof.
  intros H. unfold float.
  destruct (is_decimal_inv d H)
    as [[Hne Hd]|(i & f & -> & Hi & Hf & Di & Df)].
  - rewrite (cut_point_digits d Hd), sapp_nil_r.
    unfold all_digits. fold (all_of isdigit d). rewrite Hd.
    rewrite (eqb_nonempty d Hne). simpl. eauto.
  - rewrite (cut_point_app i f Di).
    unfold all_digits. fold (all_of isdigit i). fold (all_of isdigit f).
    rewrite Di, Df, (eqb_nonempty _ (sapp_nonempty_l i f Hi)). simpl. eauto.
Qed.

(** ** C5: numeric extraction *)

(** C5, amended.  The text extracted from a line is the longest run of
    digits and points that directly follows the label and the white space
    after it, at the leftmost occurrence of the label that is followed in
    this way, and the value is [float] of that run.  In particular, when a
    match of the decimal-number pattern stands there and no digit or point
    follows it, extraction succeeds and yields that match. *)
Theorem extract_adjacent_number label :
  (forall line cap,
     re_search label line = Some cap ->
     extract label line = float cap /\
     exists pre ws rest,
       line = pre ++ label ++ ws ++ cap ++ rest /\
       unmatched_before label pre (label ++ ws ++ cap ++ rest) = true /\
       all_of isspace ws = true /\ cap <> "" /\
       all_of isnumchar cap = true /\ take_numeric rest = "") /\
  (forall pre ws d rest,
     unmatched_before label pre (label ++ ws ++ d ++ rest) = true ->
     all_of isspace ws = true -> is_decimal d = true -> take_numeric rest = "" ->
     exists v, extract label (pre ++ label ++ ws ++ d ++ rest) = Ok v /\
               float d = Ok v).
Proof.
  split.
  - intros line cap H. split; [unfold extract; rewrite H; reflexivity|].
    destruct (re_search_inv _ _ _ H) as (pre & tail & -> & Hu & Hm).
    destruct (match_here_inv _ _ _ Hm) as (ws & rest & -> & Hws & Hne & Hc & Hr).
    exists pre, ws, rest. auto 10.
  - intros pre ws d rest Hu Hws Hd Hr.
    destruct (is_decimal_numeric d Hd) as [Hne Hn].
    destruct (float_decimal d Hd) as [v Hv].
    exists v. split; [|exact Hv].
    unfold extract. rewrite (re_search_unmatched _ _ _ Hu).
    rewrite (re_search_here _ _ _ (match_here_adjacent label ws d rest Hws Hne Hn Hr)).
    exact Hv.
Qed.

Lemma extract_adjacent_number_witness :
  exists v,
    extract "Requests/second:"
      ("  " ++ "Requests/second:" ++ "    " ++ "150.5" ++ " [#/sec] (mean)") = Ok v /\
    float "150.5" = Ok v.
Proof.
  apply (proj2 (extract_adjacent_number "Requests/second:")
           "  " "    " "150.5" " [#/sec] (mean)"); reflexivity.
Defined.

(** C5 as stated fails: after the label this line has a match of the
    decimal-number pattern, "12", but not directly after it, and extraction
    raises instead of yielding 12. *)
Lemma number_not_adjacent_to_label :
  let line := "Requests/second: about 12 per second" ++ NL in
  throughput_line line = true /\
  first_decimal_after "Requests/second:" line = Some "12" /\
  re_search "Requests/second:" line = None /\
  extract "Requests/second:" line = Raise AttributeError.
Proof. repeat split. Qed.

(** Where both find a number, the two need not agree: the capture group takes
    a leading point and any further points. *)
Lemma extracted_text_differs_from_first_decimal :
  first_decimal_after "Requests/second:" "Requests/second: .5" = Some "5" /\
  extract "Requests/second:" "Requests/second: .5" = Ok (mkfloat 0 "5") /\
  first_decimal_after "Requests/second:" "Requests/second: 1.2.3" = Some "1.2" /\
  extract "Requests/second:" "Requests/second: 1.2.3" = Raise ValueError.
Proof. repeat split. Qed.

(** ** Printing a float and reading it back *)
















(** ** Writing the CSV *)









(** ** Reading the CSV back *)



Lemma plain_app a b : plain (a ++ b) = plain a && plain b.
Proof. apply all_of_app. Qed.












(** ** C9: the exported CSV *)












(** A label with a comma keeps the line count but adds a field to its row. *)
Lemma label_with_comma_adds_field :
  let text := "=== Basic, 100 connections Benchmark ===" ++ NL ++ "Method: GET" ++ NL
              ++ "Requests/second: 150.5" ++ NL in
  let out := main ["plot_benchmarks.py"; "out/report.txt"]
                  (one_file "out/report.txt" text) in
  let csv := "Method,Configuration,RequestsPerSecond" ++ NL
             ++ "GET,Basic, 100 connections,150.5" ++ NL in
  get_file (written out) "out/benchmark_data.csv" = Some (Text csv) /\
  split "," "GET,Basic, 100 connections,150.5"
  = ["GET"; "Basic"; " 100 connections"; "150.5"] /\
  read_csv csv = None.
Proof. repeat split. Qed.

(** * Further properties of the script *)

(** ** The scan *)

Lemma not_sample_step st line :
  throughput_line line = false -> websocket_line line = false ->
  exists st', step st line = Ok st' /\
              results st' = results st /\ configs st' = configs st.
Proof.
  unfold throughput_line, websocket_line. intros Ht Hw.
  destruct (is_section line) eqn:E1.
  { destruct (step_section st line E1) as [b ->]. eauto. }
  destruct (is_method line) eqn:E2.
  { destruct (step_method st line E1 E2) as [a [_ ->]]. eauto. }
  simpl in Ht, Hw. rewrite Ht in Hw. simpl in Hw.
  rewrite (step_other st line E1 E2 Ht Hw). eauto.
Qed.

(** X1.  A report in which no line reaches the ["Requests/second:"] branch or
    the ["WebSocket messages/second:"] branch is parsed without error, whatever
    its markers and other lines are, and gives the empty aggregate. *)
Theorem report_without_samples_is_empty lines :
  Forall (fun l => throughput_line l = false /\ websocket_line l = false) lines ->
  parse_lines lines = Ok (results scan0, configs scan0).
Proof.
  intros F. unfold parse_lines.
  assert (G : forall st, exists st',
             scan_lines st lines = Ok st' /\
             results st' = results st /\ configs st' = configs st).
  { induction F as [|l lines [Ht Hw] F IH]; intros st; simpl; [eauto|].
    destruct (not_sample_step st l Ht Hw) as (st1 & -> & Hr & Hc). simpl.
    destruct (IH st1) as (st' & -> & Hr' & Hc'). exists st'.
    rewrite Hr', Hc', Hr, Hc. auto. }
  destruct (G scan0) as (st' & E & Hr & Hc). rewrite E. simpl.
  rewrite Hr, Hc. reflexivity.
Qed.

Lemma report_without_samples_is_empty_witness :
  parse_lines ["=== Basic Benchmark ===" ++ NL; "Method: PUT" ++ NL;
               "Time taken: 3 s" ++ NL; NL]
  = Ok (results scan0, configs scan0).
Proof.
  apply report_without_samples_is_empty.
  repeat constructor.
Defined.

Lemma extract_raise label line e :
  extract label line = Raise e -> e = AttributeError \/ e = ValueError.
Proof.
  unfold extract. destruct (re_search label line) as [cap|]; simpl.
  - unfold float. destruct (cut_point cap) as [i o].
    destruct (all_digits i && _ && _); [discriminate|]. intros [= <-]. auto.
  - intros [= <-]. auto.
Qed.

Lemma append_at_raise {A} (d : dict (list A)) k x e :
  append_at d k x = Raise e -> e = KeyError k /\ ~ In k (map fst d).
Proof.
  intros H. destruct (in_dec string_dec k (map fst d)) as [Hin|Hout].
  - destruct (append_at_in_keys d k x Hin) as [d' Hd']. congruence.
  - rewrite (append_at_not_in_keys d k x Hout) in H. injection H as <-. auto.
Qed.

Lemma step_raise st line e :
  has_keys st -> step st line = Raise e -> parse_error e.
Proof.
  intros [Kr Kc] H. unfold parse_error.
  destruct (is_section line) eqn:E1.
  { destruct (step_section st line E1) as [b Hb]. congruence. }
  destruct (is_method line) eqn:E2.
  { destruct (step_method st line E1 E2) as [a [_ Ha]]. congruence. }
  destruct (is_throughput line) eqn:E3.
  { rewrite (step_throughput st line E1 E2 E3) in H.
    destruct (extract "Requests/second:" line) as [v|e0] eqn:Ev; simpl in H.
    - destruct (current_method st) as [m|]; [|discriminate].
      destruct (truthy (Some m)) eqn:Et; [|discriminate].
      assert (Hne : m <> "") by (intros ->; discriminate).
      destruct (append_at (results st) m v) as [r|e1] eqn:Er; simpl in H.
      + destruct (append_at (configs st) m (current_config st)) as [c|e2] eqn:Ec;
          simpl in H; [discriminate|].
        injection H as <-. destruct (append_at_raise _ _ _ _ Ec) as [-> Hout].
        right; right. exists m. rewrite Kc in Hout. auto.
      + injection H as <-. destruct (append_at_raise _ _ _ _ Er) as [-> Hout].
        right; right. exists m. rewrite Kr in Hout. auto.
    - injection H as <-. destruct (extract_raise _ _ _ Ev); auto. }
  destruct (is_websocket line) eqn:E4.
  { rewrite (step_websocket st line E1 E2 E3 E4) in H.
    destruct (extract "messages/second:" line) as [v|e0] eqn:Ev; simpl in H.
    - destruct (append_at_in_keys (results st) "WebSocket" v) as [r Er];
        [rewrite Kr; simpl; auto|].
      destruct (append_at_in_keys (configs st) "WebSocket" (current_config st))
        as [c Ec]; [rewrite Kc; simpl; auto|].
      rewrite Er in H. simpl in H. rewrite Ec in H. discriminate.
    - injection H as <-. destruct (extract_raise _ _ _ Ev); auto. }
  rewrite (step_other st line E1 E2 E3 E4) in H. discriminate.
Qed.

Lemma scan_lines_raise_kind lines : forall st e,
  has_keys st -> scan_lines st lines = Raise e -> parse_error e.
Proof.
  induction lines as [|l lines IH]; simpl; intros st e K H; [discriminate|].
  destruct (step st l) as [st1|e1] eqn:E; simpl in H.
  - apply (IH st1 e); [eapply step_has_keys; eauto|exact H].
  - injection H as <-. eapply step_raise; eauto.
Qed.

(** X2.  The scan of a report raises nothing but the [AttributeError] and the
    [ValueError] of a failed extraction and the [KeyError] of a non-empty
    current method that is none of GET, POST and WebSocket; the indexing of
    the split pieces, in particular, never fails. *)
Theorem parse_lines_errors lines e :
  parse_lines lines = Raise e -> parse_error e.
Proof.
  unfold parse_lines. intros H.
  destruct (scan_lines scan0 lines) as [st|e0] eqn:E; simpl in H; [discriminate|].
  injection H as <-. exact (scan_lines_raise_kind _ _ _ has_keys_scan0 E).
Qed.

Lemma parse_lines_errors_witness :
  parse_lines ["Method: PUT" ++ NL; "Requests/second: 150.5" ++ NL]
  = Raise (KeyError "PUT") /\
  parse_error (KeyError "PUT").
Proof.
  split; [reflexivity|].
  apply (parse_lines_errors ["Method: PUT" ++ NL; "Requests/second: 150.5" ++ NL]).
  reflexivity.
Defined.

(** X3.  Reading further lines only appends: when the parse of a report
    completes, so does the parse of each of its initial parts, and what the
    part gives for a method is the beginning of what the whole report gives,
    samples and labels growing by the same number. *)
Theorem parse_lines_extends pre post rs2 cs2 :
  parse_lines (pre ++ post) = Ok (rs2, cs2) ->
  exists rs1 cs1,
    parse_lines pre = Ok (rs1, cs1) /\
    forall m, In m methods3 ->
      exists r1 c1 r' c',
        lookup rs1 m = Ok r1 /\ lookup cs1 m = Ok c1 /\
        lookup rs2 m = Ok (r1 ++ r')%list /\ lookup cs2 m = Ok (c1 ++ c')%list /\
        List.length r' = List.length c'.
Proof.
  unfold parse_lines. rewrite scan_lines_app. intros H.
  destruct (scan_lines scan0 pre) as [st1|] eqn:E1; simpl in H; [|discriminate].
  destruct (scan_lines st1 post) as [st2|] eqn:E2; simpl in H; [|discriminate].
  injection H as <- <-. exists (results st1), (configs st1). split; [reflexivity|].
  intros m Hm.
  destruct (scan_lines_has_keys _ _ _ has_keys_scan0 E1) as [Kr Kc].
  destruct (lookup_in_keys (results st1) m) as [r1 Hr1]; [rewrite Kr; exact Hm|].
  destruct (lookup_in_keys (configs st1) m) as [c1 Hc1]; [rewrite Kc; exact Hm|].
  destruct (scan_encountered _ _ _ m _ _ E2 Hr1 Hc1) as [Hr2 Hc2].
  eexists r1, c1, _, _. repeat split; eauto.
  rewrite !length_map. reflexivity.
Qed.

Lemma parse_lines_extends_witness :
  exists rs1 cs1,
    parse_lines ["Method: GET" ++ NL; "Requests/second: 150.5" ++ NL] = Ok (rs1, cs1) /\
    forall m, In m methods3 ->
      exists r1 c1 r' c',
        lookup rs1 m = Ok r1 /\ lookup cs1 m = Ok c1 /\
        lookup [("GET", [mkfloat 150 "5"; mkfloat 7 ""]); ("POST", []); ("WebSocket", [])] m
        = Ok (r1 ++ r')%list /\
        lookup [("GET", [@None string; Some "Basic"]); ("POST", []); ("WebSocket", [])] m
        = Ok (c1 ++ c')%list /\
        List.length r' = List.length c'.
Proof.
  apply (parse_lines_extends
           ["Method: GET" ++ NL; "Requests/second: 150.5" ++ NL]
           ["=== Basic Benchmark ===" ++ NL; "Requests/second: 7" ++ NL]).
  reflexivity.
Defined.

(** X4.  A ["Requests/second:"] line that carries a number, read while one
    of GET, POST and WebSocket is the current method, appends the number to
    the samples of that method and the current configuration label to its
    labels; the lists of the other methods and the two latches stay as they
    are. *)
Theorem throughput_line_appends pre line st m v :
  scan_lines scan0 pre = Ok st ->
  current_method st = Some m -> In m methods3 ->
  throughput_line line = true ->
  extract "Requests/second:" line = Ok v ->
  exists st' r c,
    step st line = Ok st' /\
    lookup (results st) m = Ok r /\ lookup (configs st) m = Ok c /\
    lookup (results st') m = Ok (r ++ [v])%list /\
    lookup (configs st') m = Ok (c ++ [current_config st])%list /\
    (forall k, k <> m ->
               lookup (results st') k = lookup (results st) k /\
               lookup (configs st') k = lookup (configs st) k) /\
    current_method st' = current_method st /\
    current_config st' = current_config st.
Proof.
  intros Hpre Hm Hin Ht Hv.
  destruct (throughput_line_inv _ Ht) as (H1 & H2 & H3).
  destruct (scan_lines_has_keys _ _ _ has_keys_scan0 Hpre) as [Kr Kc].
  assert (Hne : m <> "").
  { intros ->. simpl in Hin. destruct Hin as [H|[H|[H|[]]]]; discriminate. }
  rewrite (step_throughput st line H1 H2 H3), Hv, Hm. simpl.
  rewrite (truthy_nonempty m Hne).
  destruct (append_at_in_keys (results st) m v) as [r' Er]; [rewrite Kr; exact Hin|].
  destruct (append_at_in_keys (configs st) m (current_config st)) as [c' Ec];
    [rewrite Kc; exact Hin|].
  rewrite Er. simpl. rewrite Ec. simpl.
  destruct (lookup_append_at _ _ _ _ Er) as [r [Hr Hr']].
  destruct (lookup_append_at _ _ _ _ Ec) as [c [Hc Hc']].
  eexists _, r, c. split; [reflexivity|]. simpl.
  repeat split; auto.
  - eapply lookup_append_at_other; eauto.
  - eapply lookup_append_at_other; eauto.
Qed.

Lemma throughput_line_appends_witness :
  let st := mkscan (results scan0) (configs scan0) (Some "POST") (Some "Basic") in
  exists st' r c,
    step st ("Requests/second:    150.5 [#/sec] (mean)" ++ NL) = Ok st' /\
    lookup (results st) "POST" = Ok r /\ lookup (configs st) "POST" = Ok c /\
    lookup (results st') "POST" = Ok (r ++ [mkfloat 150 "5"])%list /\
    lookup (configs st') "POST" = Ok (c ++ [current_config st])%list /\
    (forall k, k <> "POST" ->
               lookup (results st') k = lookup (results st) k /\
               lookup (configs st') k = lookup (configs st) k) /\
    current_method st' = current_method st /\
    current_config st' = current_config st.
Proof.
  apply (throughput_line_appends
           ["=== Basic Benchmark ===" ++ NL; "Method: POST" ++ NL]).
  - reflexivity.
  - reflexivity.
  - simpl. auto.
  - reflexivity.
  - reflexivity.
Defined.

(** X5.  The configuration label is a latch: once a section marker has been
    read, the label it gave stays current over any lines that are not section
    markers (method markers, samples and the rest), however many. *)
Theorem section_label_persists st sec mid st' :
  section_marker sec = true ->
  Forall (fun l => section_marker l = false) mid ->
  scan_lines st (sec :: mid) = Ok st' ->
  exists a b,
    getitem (split "=== " sec) 1 = Ok a /\
    getitem (split " Benchmark" a) 0 = Ok b /\
    current_config st' = Some b.
Proof.
  intros Hs F H. cbn [scan_lines] in H. unfold section_marker in Hs.
  assert (Hc : contains "=== " sec = true).
  { unfold is_section in Hs. apply andb_prop in Hs. tauto. }
  destruct (getitem_split_1 _ _ _ Hc) as [a Ha].
  destruct (getitem_split_0 " Benchmark" a) as [b Hb].
  exists a, b. split; [exact Ha|]. split; [exact Hb|].
  unfold step in H. rewrite Hs, Ha in H. cbn [bind] in H. rewrite Hb in H.
  cbn [bind] in H.
  rewrite (scan_current_config _ _ _ F H). reflexivity.
Qed.

Lemma section_label_persists_witness :
  exists a b,
    getitem (split "=== " ("=== High Concurrency Benchmark ===" ++ NL)) 1 = Ok a /\
    getitem (split " Benchmark" a) 0 = Ok b /\
    current_config
      (mkscan [("GET", [mkfloat 7 ""]); ("POST", []); ("WebSocket", [])]
              [("GET", [Some "High Concurrency"]); ("POST", []); ("WebSocket", [])]
              (Some "GET") (Some "High Concurrency")) = Some b.
Proof.
  apply (section_label_persists scan0
           ("=== High Concurrency Benchmark ===" ++ NL)
           ["Method: GET" ++ NL; "Requests/second: 7" ++ NL]).
  - reflexivity.
  - repeat constructor.
  - reflexivity.
Defined.

(** X6.  The current method is a latch too: the value a method marker gave
    stays current over any lines that are not handled as method markers. *)
Theorem method_persists st marker mid st' :
  method_marker marker = true ->
  Forall (fun l => method_marker l = false) mid ->
  scan_lines st (marker :: mid) = Ok st' ->
  exists a,
    getitem (split "Method: " marker) 1 = Ok a /\
    current_method st' = Some (strip a).
Proof.
  intros Hm F H. cbn [scan_lines] in H. unfold method_marker in Hm.
  apply andb_prop in Hm. destruct Hm as [H1 H2]. apply negb_true_iff in H1.
  destruct (step_method st marker H1 H2) as [a [Ha Hstep]].
  exists a. split; [exact Ha|].
  rewrite Hstep in H. cbn [bind] in H.
  rewrite (scan_current_method _ _ _ F H). reflexivity.
Qed.

Lemma method_persists_witness :
  exists a,
    getitem (split "Method: " ("Method: POST" ++ NL)) 1 = Ok a /\
    current_method
      (mkscan [("GET", []); ("POST", [mkfloat 7 ""]); ("WebSocket", [])]
              [("GET", []); ("POST", [Some "Basic"]); ("WebSocket", [])]
              (Some "POST") (Some "Basic")) = Some (strip a).
Proof.
  apply (method_persists scan0 ("Method: POST" ++ NL)
           ["=== Basic Benchmark ===" ++ NL; "Requests/second: 7" ++ NL]).
  - reflexivity.
  - repeat constructor.
  - reflexivity.
Defined.

Lemma scan_lines_relevant lines : forall st,
  scan_lines st (filter relevant lines) = scan_lines st lines.
Proof.
  induction lines as [|l lines IH]; intros st; [reflexivity|].
  cbn [filter]. destruct (relevant l) eqn:E.
  - cbn [scan_lines]. destruct (step st l); simpl; auto.
  - unfold relevant in E.
    apply orb_false_elim in E. destruct E as [E E4].
    apply orb_false_elim in E. destruct E as [E E3].
    apply orb_false_elim in E. destruct E as [E1 E2].
    cbn [scan_lines]. rewrite (step_other st l E1 E2 E3 E4). simpl. apply IH.
Qed.

(** X7.  Lines that no branch of the chain tests true on play no part: the
    parse of a report, result or exception, is that of the report without
    them. *)
Theorem unmatched_lines_are_ignored lines :
  parse_lines (filter relevant lines) = parse_lines lines.
Proof. unfold parse_lines. rewrite scan_lines_relevant. reflexivity. Qed.

(** ** What the markers extract *)

Lemma prefix_app sep tail : prefix sep (sep ++ tail) = true.
Proof.
  induction sep as [|a sep IH]; [destruct tail; reflexivity|].
  cbn [append prefix]. destruct (ascii_dec a a); [exact IH|congruence].
Qed.

Lemma prefix_tail sep : forall x r,
  String.length sep <= String.length x -> prefix sep (x ++ r) = prefix sep x.
Proof.
  induction sep as [|a sep IH]; intros x r L.
  - destruct x, r; reflexivity.
  - destruct x as [|b x]; [simpl in L; lia|].
    cbn [append prefix]. destruct (ascii_dec a b); [|reflexivity].
    apply IH. simpl in L. lia.
Qed.

Lemma contains_mid sub a b : contains sub (a ++ sub ++ b) = true.
Proof.
  induction a as [|c a IH].
  - cbn [append]. destruct (sub ++ b) eqn:E; cbn [contains];
      rewrite <- E, prefix_app; reflexivity.
  - cbn [append contains]. rewrite IH. apply orb_true_r.
Qed.

Lemma absent_before_ext sep a t r :
  String.length sep <= S (String.length t) ->
  absent_before sep a (t ++ r) = absent_before sep a t.
Proof.
  intros L. induction a as [|c a IH]; [reflexivity|].
  cbn [absent_before]. rewrite IH. f_equal. f_equal.
  rewrite <- sapp_assoc. apply prefix_tail.
  cbn [append String.length]. rewrite slength_app. lia.
Qed.

Lemma split_from_skip sep p : forall tail cur,
  split_from sep (p ++ tail) (String.length p) cur = split_from sep tail 0 cur.
Proof.
  induction p as [|c p IH]; intros tail cur; [reflexivity|].
  cbn [append String.length split_from]. apply IH.
Qed.

Lemma split_from_first sep a : forall tail cur,
  sep <> "" -> absent_before sep a (sep ++ tail) = true ->
  split_from sep (a ++ sep ++ tail) 0 cur = (cur ++ a) :: split_from sep tail 0 "".
Proof.
  induction a as [|c a IH]; intros tail cur Hne H.
  - destruct sep as [|x sep]; [congruence|].
    rewrite sapp_nil_r. change ("" ++ String x sep ++ tail) with (String x (sep ++ tail)).
    cbn [split_from].
    change (String x (sep ++ tail)) with (String x sep ++ tail).
    rewrite prefix_app. f_equal.
    cbn [String.length]. rewrite Nat.sub_succ, Nat.sub_0_r.
    apply split_from_skip.
  - cbn [absent_before] in H. apply andb_prop in H. destruct H as [H1 H2].
    apply negb_true_iff in H1. cbn [append] in H1. cbn [append split_from].
    rewrite H1, (IH tail _ Hne H2), sapp_assoc. reflexivity.
Qed.

Lemma split_from_cur sep s : forall skip cur,
  exists r l, split_from sep s skip cur = (cur ++ r) :: l.
Proof.
  induction s as [|c s IH]; intros skip cur.
  - exists "", []. simpl. rewrite sapp_nil_r. reflexivity.
  - cbn [split_from]. destruct skip; [|apply IH].
    destruct (prefix sep (String c s)).
    + eexists "", _. rewrite sapp_nil_r. reflexivity.
    + destruct (IH 0 (cur ++ String c "")) as (r & l & ->).
      exists (String c r), l. rewrite sapp_assoc. reflexivity.
Qed.

Lemma split_from_head sep a : forall t cur,
  absent_before sep a t = true ->
  exists r l, split_from sep (a ++ t) 0 cur = (cur ++ a ++ r) :: l.
Proof.
  induction a as [|c a IH]; intros t cur H.
  - apply split_from_cur.
  - cbn [absent_before] in H. apply andb_prop in H. destruct H as [H1 H2].
    apply negb_true_iff in H1. cbn [append] in H1. cbn [append split_from].
    rewrite H1. destruct (IH t (cur ++ String c "") H2) as (r & l & ->).
    exists r, l. rewrite sapp_assoc. reflexivity.
Qed.

Lemma split_from_absent sep s : forall cur,
  contains sep s = false -> split_from sep s 0 cur = [cur ++ s].
Proof.
  induction s as [|c s IH]; intros cur H.
  - simpl. rewrite sapp_nil_r. reflexivity.
  - cbn [contains] in H. apply orb_false_elim in H. destruct H as [H1 H2].
    cbn [split_from]. rewrite H1, (IH _ H2), sapp_assoc. reflexivity.
Qed.

(** X8.  On a section line [pre === L Benchmark === rest], where the
    ["=== "] shown is the first of the line, no other starts before the end
    of [" Benchmark"], and [" Benchmark"] does not occur earlier in [L], the
    label extracted is exactly [L], whatever the state and the rest of the
    line. *)
Theorem section_marker_label st pre L rest :
  absent_before "=== " pre "=== " = true ->
  absent_before "=== " (L ++ " Benchmark") " ===" = true ->
  absent_before " Benchmark" L " Benchmark" = true ->
  step st (pre ++ "=== " ++ L ++ " Benchmark ===" ++ rest)
  = Ok (mkscan (results st) (configs st) (current_method st) (Some L)).
Proof.
  intros H1 H2 H3.
  set (tail := L ++ " Benchmark ===" ++ rest).
  assert (Etail : tail = (L ++ " Benchmark") ++ " ===" ++ rest).
  { unfold tail. rewrite sapp_assoc. reflexivity. }
  assert (S1 : is_section (pre ++ "=== " ++ tail) = true).
  { unfold is_section. rewrite contains_mid. cbn [andb]. unfold tail.
    replace (pre ++ "=== " ++ L ++ " Benchmark ===" ++ rest)
      with ((pre ++ "=== " ++ L) ++ " Benchmark ===" ++ rest)
      by (rewrite !sapp_assoc; reflexivity).
    apply contains_mid. }
  unfold step. rewrite S1. unfold split.
  rewrite (split_from_first "=== " pre tail "") by
    (try discriminate; rewrite absent_before_ext by (simpl; lia); exact H1).
  rewrite Etail.
  destruct (split_from_head "=== " (L ++ " Benchmark") (" ===" ++ rest) "")
    as (r & l & ->).
  { rewrite absent_before_ext by (simpl; lia). exact H2. }
  cbn [getitem nth_error bind append]. rewrite sapp_assoc.
  rewrite (split_from_first " Benchmark" L r "") by
    (try discriminate; rewrite absent_before_ext by (simpl; lia); exact H3).
  reflexivity.
Qed.

Lemma section_marker_label_witness :
  step scan0 ("" ++ "=== " ++ "High Concurrency" ++ " Benchmark ===" ++ NL)
  = Ok (mkscan (results scan0) (configs scan0) (current_method scan0)
               (Some "High Concurrency")).
Proof.
  apply (section_marker_label scan0 "" "High Concurrency" NL); reflexivity.
Defined.

Lemma rstrip_spaces ws : all_of isspace ws = true -> rstrip ws = "".
Proof.
  induction ws as [|c ws IH]; [reflexivity|].
  rewrite all_of_cons. intros H. apply andb_prop in H. destruct H as [H1 H2].
  cbn [rstrip]. rewrite (IH H2), H1. reflexivity.
Qed.

Lemma lstrip_all_spaces ws : all_of isspace ws = true -> lstrip ws = "".
Proof.
  intros H. rewrite <- (sapp_nil_r ws). rewrite (lstrip_spaces ws "" H). reflexivity.
Qed.

Lemma rstrip_app_spaces m ws :
  all_of isspace ws = true -> rstrip (m ++ ws) = rstrip m.
Proof.
  intros H. induction m as [|c m IH]; [apply rstrip_spaces; exact H|].
  cbn [append rstrip]. rewrite IH. reflexivity.
Qed.

Lemma lstrip_fixed_app m s : m <> "" -> lstrip m = m -> lstrip (m ++ s) = m ++ s.
Proof.
  destruct m as [|c m]; [congruence|]. intros _ H.
  cbn [append lstrip] in *. destruct (isspace c); [|reflexivity].
  exfalso. destruct (lstrip_decomp m) as (ws & Hm & _).
  apply (f_equal String.length) in H. apply (f_equal String.length) in Hm.
  rewrite slength_app in Hm. simpl in H. lia.
Qed.

(** The text between white space is what [strip] returns. *)
Lemma strip_padded ws1 m ws2 :
  all_of isspace ws1 = true -> all_of isspace ws2 = true ->
  lstrip m = m -> rstrip m = m ->
  strip (ws1 ++ m ++ ws2) = m.
Proof.
  intros H1 H2 Hl Hr. unfold strip. rewrite (lstrip_spaces ws1 _ H1).
  destruct (string_dec m "") as [->|Hne].
  - cbn [append]. rewrite (lstrip_all_spaces ws2 H2). reflexivity.
  - rewrite (lstrip_fixed_app m ws2 Hne Hl), (rstrip_app_spaces m ws2 H2).
    exact Hr.
Qed.

Lemma method_marker_split pre tail :
  absent_before "Method: " pre "Method: " = true ->
  contains "Method: " tail = false ->
  getitem (split "Method: " (pre ++ "Method: " ++ tail)) 1 = Ok tail.
Proof.
  intros H1 H2. unfold split.
  rewrite (split_from_first "Method: " pre tail "") by
    (try discriminate; rewrite absent_before_ext by (simpl; lia); exact H1).
  rewrite (split_from_absent _ _ "" H2). reflexivity.
Qed.

(** X9.  On a line [pre Method: m] that is not a section line, with white
    space allowed around [m] and no other ["Method: "] in the line, the
    current method becomes exactly [m], line terminator and padding
    removed, whether or not [m] is one of the three methods. *)
Theorem method_marker_value st pre ws1 m ws2 :
  let line := pre ++ "Method: " ++ ws1 ++ m ++ ws2 in
  is_section line = false ->
  absent_before "Method: " pre "Method: " = true ->
  contains "Method: " (ws1 ++ m ++ ws2) = false ->
  all_of isspace ws1 = true -> all_of isspace ws2 = true ->
  lstrip m = m -> rstrip m = m ->
  step st line
  = Ok (mkscan (results st) (configs st) (Some m) (current_config st)).
Proof.
  intros line Hs Ha Hc H1 H2 Hl Hr.
  assert (Hm : is_method line = true) by apply contains_mid.
  destruct (step_method st line Hs Hm) as [a [Hsplit ->]].
  unfold line in Hsplit. rewrite (method_marker_split pre _ Ha Hc) in Hsplit.
  injection Hsplit as <-. rewrite (strip_padded ws1 m ws2 H1 H2 Hl Hr).
  reflexivity.
Qed.

Lemma method_marker_value_witness :
  step scan0 ("  " ++ "Method: " ++ " " ++ "WebSocket" ++ (" " ++ NL))
  = Ok (mkscan (results scan0) (configs scan0) (Some "WebSocket")
               (current_config scan0)).
Proof.
  apply (method_marker_value scan0 "  " " " "WebSocket" (" " ++ NL)); reflexivity.
Defined.

(** X10.  A method marker with nothing but white space after ["Method: "]
    makes the empty string the current method, and a ["Requests/second:"]
    line read next has its number extracted and dropped: no list changes. *)
Theorem blank_method_discards st pre ws line v :
  let marker := pre ++ "Method: " ++ ws in
  is_section marker = false ->
  absent_before "Method: " pre "Method: " = true ->
  contains "Method: " ws = false ->
  all_of isspace ws = true ->
  throughput_line line = true ->
  extract "Requests/second:" line = Ok v ->
  scan_lines st [marker; line]
  = Ok (mkscan (results st) (configs st) (Some "") (current_config st)).
Proof.
  intros marker Hs Ha Hc Hw Ht Hv.
  assert (Hm : is_method marker = true) by apply contains_mid.
  destruct (step_method st marker Hs Hm) as [a [Hsplit Hstep]].
  unfold marker in Hsplit. rewrite (method_marker_split pre ws Ha Hc) in Hsplit.
  injection Hsplit as <-.
  assert (E : strip ws = "").
  { unfold strip. rewrite (lstrip_all_spaces ws Hw). reflexivity. }
  rewrite E in Hstep.
  destruct (throughput_line_inv _ Ht) as (T1 & T2 & T3).
  cbn [scan_lines]. rewrite Hstep. cbn [bind].
  rewrite (step_throughput _ line T1 T2 T3), Hv. reflexivity.
Qed.

Lemma blank_method_discards_witness :
  scan_lines (mkscan (results scan0) (configs scan0) (Some "GET") (Some "Basic"))
             ["" ++ "Method: " ++ NL; "Requests/second: 150.5" ++ NL]
  = Ok (mkscan (results scan0) (configs scan0) (Some "") (Some "Basic")).
Proof.
  apply (blank_method_discards
           (mkscan (results scan0) (configs scan0) (Some "GET") (Some "Basic"))
           "" NL ("Requests/second: 150.5" ++ NL) (mkfloat 150 "5")); reflexivity.
Defined.

(** ** The renderers *)









(** ** The run *)
















(** X16.  For a report path with a directory part, [dir/name] with no slash
    in [name], every file of the run is in [dir]: its path is [dir], a slash
    and one of the four output names. *)
Theorem outputs_beside_report argv0 dir name d p c :
  contains "/" name = false ->
  In (p, c) (written (main [argv0; dir ++ "/" ++ name] d)) ->
  exists n, In n output_names /\ p = dir ++ n.
Proof.
  intros Hn Hin. apply main_writes_in_output_dir in Hin.
  rewrite (output_dir_of_path dir name Hn) in Hin.
  apply in_map_iff in Hin. destruct Hin as (n & <- & Hn'). eauto.
Qed.

Lemma outputs_beside_report_witness :
  exists n, In n output_names /\ "results/run1/benchmark_data.csv" = "results/run1" ++ n.
Proof.
  apply (outputs_beside_report "plot_benchmarks.py" "results/run1" "report.txt"
           (one_file "results/run1/report.txt" ("WebSocket messages/second: 7" ++ NL))
           "results/run1/benchmark_data.csv"
           (Text ("Method,Configuration,RequestsPerSecond" ++ NL
                  ++ "WebSocket,None,7.0" ++ NL))).
  - reflexivity.
  - vm_compute. auto 6.
Defined.

(** X17.  The aggregate of a completed parse has exactly the keys GET, POST
    and WebSocket, in this order, in both dictionaries: no line adds, removes
    or reorders a key, an unknown method name included. *)
Theorem aggregate_keys lines rs cs :
  parse_lines lines = Ok (rs, cs) ->
  map fst rs = ["GET"; "POST"; "WebSocket"] /\
  map fst cs = ["GET"; "POST"; "WebSocket"].
Proof.
  unfold parse_lines. intros H.
  destruct (scan_lines scan0 lines) as [st|] eqn:E; simpl in H; [|discriminate].
  injection H as <- <-. exact (scan_lines_has_keys _ _ _ has_keys_scan0 E).
Qed.

Lemma aggregate_keys_witness :
  map fst [("GET", [mkfloat 7 ""]); ("POST", []); ("WebSocket", [])]
  = ["GET"; "POST"; "WebSocket"] /\
  map fst [("GET", [Some "Basic"]); ("POST", []); ("WebSocket", [])]
  = ["GET"; "POST"; "WebSocket"].
Proof.
  apply (aggregate_keys
           ["=== Basic Benchmark ===" ++ NL; "Method: PUT" ++ NL; "Method: GET" ++ NL;
            "Requests/second: 7" ++ NL]).
  reflexivity.
Defined.
